(** * The configuration model of eks-auto-cdk-gitops

    A shallow embedding of [cdk/config/enums.py], [cdk/config/base_config.py]
    and [cdk/config/loader.py]: the enumerations, the pydantic models with
    their field constraints and model validators, and the loader that
    assembles the [InfrastructureConfig] aggregate from one YAML document.

    Python values are modelled by [pyvalue], exceptions by [exception], a
    call that may raise by [result].  A Python [str] is a Rocq [string]
    holding its UTF-8 encoding; a Python [float] is an IEEE-754 binary64
    value of [spec_float]; a Python [int] is a [Z]. *)

From Stdlib Require Import ZArith NArith Bool List String Ascii.
From Stdlib Require Import Floats.SpecFloat DecimalString.
From stdpp Require Import base option gmap strings.
Import ListNotations.

Local Open Scope Z_scope.

#[local] Set Warnings "-register-all".

(** ** Python values *)

(** What [yaml.safe_load] hands to the program: scalars, sequences and
    mappings.  A mapping is kept as the list of its entries in document
    order; a well-formed mapping has no two equal keys. *)
Inductive pyvalue : Type :=
| PyNone
| PyBool (b : bool)
| PyInt (z : Z)
| PyFloat (f : spec_float)
| PyStr (s : string)
| PyList (l : list pyvalue)
| PyDict (d : list (pyvalue * pyvalue)).

(** The error kinds of a pydantic [ValidationError] line. *)
Inductive error_type : Type :=
| missing
| string_type
| int_type
| int_parsing
| int_from_float
| float_type
| float_parsing
| bool_type
| bool_parsing
| dict_type
| enum_error (expected : string)
| string_pattern_mismatch (pattern : string)
| greater_than_equal (ge : string)
| value_error (msg : string).

(** The message of an error line. *)
Definition error_message (e : error_type) : string :=
  match e with
  | missing => "Field required"
  | string_type => "Input should be a valid string"
  | int_type => "Input should be a valid integer"
  | int_parsing => "Input should be a valid integer, unable to parse string as an integer"
  | int_from_float => "Input should be a valid integer, got a number with a fractional part"
  | float_type => "Input should be a valid number"
  | float_parsing => "Input should be a valid number, unable to parse string as a number"
  | bool_type => "Input should be a valid boolean"
  | bool_parsing => "Input should be a valid boolean, unable to interpret input"
  | dict_type => "Input should be a valid dictionary"
  | enum_error expected => "Input should be " +:+ expected
  | string_pattern_mismatch pattern => "String should match pattern '" +:+ pattern +:+ "'"
  | greater_than_equal ge => "Input should be greater than or equal to " +:+ ge
  | value_error msg => "Value error, " +:+ msg
  end.

Record error_details : Type := ErrorDetails {
  loc : list string;
  type : error_type
}.

Inductive exception : Type :=
| FileNotFoundError (path : string)
| YAMLError
| KeyError (key : string)
| TypeError
| AttributeError (cls attr : string)
| ValidationError (title : string) (errors : list error_details).

Inductive result (A : Type) : Type :=
| Ok (a : A)
| Raise (e : exception).
Arguments Ok {A} a.
Arguments Raise {A} e.

Definition is_validation_error {A} (r : result A) : bool :=
  match r with Raise (ValidationError _ _) => true | _ => false end.

(** The messages a raised [ValidationError] carries, one per error line. *)
Definition messages {A} (r : result A) : list string :=
  match r with
  | Raise (ValidationError _ errors) => map (fun e => error_message (type e)) errors
  | _ => []
  end.

(** Python's [sub in s] on strings. *)
Fixpoint contains (s sub : string) : bool :=
  String.prefix sub s ||
  match s with
  | EmptyString => false
  | String _ s' => contains s' sub
  end.

(** ** Floats *)

(** Binary64 literals used by the schema. *)
Definition float_0_5 : spec_float := S754_finite false 4503599627370496 (-53).
Definition float_2_0 : spec_float := S754_finite false 4503599627370496 (-51).
Definition float_0_0 : spec_float := S754_zero false.
Definition float_1_0 : spec_float := S754_finite false 4503599627370496 (-52).

(** Python's [a < b] and [a >= b] on floats (IEEE-754: both are false
    when either side is NaN).  A Python float is a canonical binary64
    value, [valid_binary 53 1024 f = true], on which [SFcompare] is the
    numeric order. *)
Definition float_lt (a b : spec_float) : bool := SFltb a b.
Definition float_ge (a b : spec_float) : bool := SFleb b a.

(** ** What the libraries under the program provide

    Conversions and tables of pydantic-core, CPython and the regex engine
    that the repository does not define: they are parameters of the model. *)
Record runtime : Type := Runtime {
  (** lax conversion of a [str] to an [int] field *)
  str_as_int : string -> option Z;
  (** lax conversion of a [str] to a [float] field *)
  str_as_float : string -> option spec_float;
  (** lax conversion of an [int] to a [float] field *)
  int_as_float : Z -> option spec_float;
  (** lax conversion of a [float] to an [int] field *)
  float_as_int : spec_float -> option Z;
  (** [repr] of a float, as an f-string interpolates it *)
  float_repr : spec_float -> string;
  (** the code points beyond ASCII that the regex class [\d] matches
      (the decimal digits of the other scripts) *)
  decimal_digit : N -> bool
}.

(** The ASCII digits, which [\d] always matches. *)
Definition ascii_digit (x : N) : bool := ((48 <=? x) && (x <=? 57))%N.

(** [str(z)] for an int. *)
Definition int_str (z : Z) : string := NilZero.string_of_int (Z.to_int z).

(** ** Field validation (pydantic, lax mode) *)

Definition validation (A : Type) : Type := (list error_details + A)%type.

Definition vpure {A} (a : A) : validation A := inr a.

Definition vap {A B} (f : validation (A -> B)) (x : validation A) : validation B :=
  match f, x with
  | inr g, inr a => inr (g a)
  | inr _, inl e => inl e
  | inl e, inr _ => inl e
  | inl e1, inl e2 => inl (e1 ++ e2)
  end.

Notation "f <@> x" := (vap f x) (at level 61, left associativity).

(** A validator turns an input value into a field value or into error
    lines, whose [loc] is relative to the field. *)
Definition validator (T : Type) : Type := pyvalue -> validation T.

Definition fail {T} (e : error_type) : validation T := inl [ErrorDetails [] e].

Definition of_option {T} (e : error_type) (o : option T) : validation T :=
  match o with Some t => inr t | None => fail e end.

Definition validate_str : validator string := fun v =>
  match v with
  | PyStr s => inr s
  | _ => fail string_type
  end.

Definition validate_optional_str : validator (option string) := fun v =>
  match v with
  | PyNone => inr None
  | PyStr s => inr (Some s)
  | _ => fail string_type
  end.

(** Lower-casing of the ASCII letters. *)
Definition lower_ascii (c : ascii) : ascii :=
  let n := N_of_ascii c in
  if ((65 <=? n) && (n <=? 90))%N then ascii_of_N (n + 32) else c.

Fixpoint lower (s : string) : string :=
  match s with
  | EmptyString => EmptyString
  | String c s' => String (lower_ascii c) (lower s')
  end.

(** The strings pydantic accepts for a [bool] field, after lower-casing. *)
Definition str_as_bool (s : string) : option bool :=
  let l := lower s in
  if existsb (String.eqb l) ["0"; "off"; "f"; "false"; "n"; "no"]%string then Some false
  else if existsb (String.eqb l) ["1"; "on"; "t"; "true"; "y"; "yes"]%string then Some true
  else None.

Section Validation.
Context (rt : runtime).

Definition validate_int : validator Z := fun v =>
  match v with
  | PyInt z => inr z
  | PyBool b => inr (if b then 1 else 0)
  | PyFloat f => of_option int_from_float (float_as_int rt f)
  | PyStr s => of_option int_parsing (str_as_int rt s)
  | _ => fail int_type
  end.

Definition validate_float : validator spec_float := fun v =>
  match v with
  | PyFloat f => inr f
  | PyInt z => of_option float_type (int_as_float rt z)
  | PyBool b => inr (if b then float_1_0 else float_0_0)
  | PyStr s => of_option float_parsing (str_as_float rt s)
  | _ => fail float_type
  end.

Definition validate_bool : validator bool := fun v =>
  match v with
  | PyBool b => inr b
  | PyInt 0 => inr false
  | PyInt 1 => inr true
  | PyFloat f =>
      if SFeqb f float_0_0 then inr false
      else if SFeqb f float_1_0 then inr true
      else fail bool_parsing
  | PyStr s => of_option bool_parsing (str_as_bool s)
  | PyInt _ => fail bool_parsing
  | _ => fail bool_type
  end.

(** [Field(ge=bound)] on an int and on a float: the value is kept when
    [value >= bound] holds and refused otherwise. *)
Definition int_ge (bound : Z) (v : validator Z) : validator Z := fun x =>
  match v x with
  | inr z => if z >=? bound then inr z else fail (greater_than_equal (int_str bound))
  | inl e => inl e
  end.

Definition float_field_ge (bound : spec_float) (v : validator spec_float)
  : validator spec_float := fun x =>
  match v x with
  | inr f =>
      if float_ge f bound then inr f else fail (greater_than_equal (float_repr rt bound))
  | inl e => inl e
  end.
End Validation.

(** ** Pattern constraints

    [Field(pattern=...)] is checked by the regex engine of pydantic-core.
    The schema's patterns start with [^] and end with [$], so a search
    succeeds exactly when the whole string matches the body; the body is
    kept as a syntax tree and matched by derivatives over code points. *)
Module Regex.

Inductive cclass : Type :=
| Range (lo hi : N)
| Digit
| Union (a b : cclass).

Inductive regex : Type :=
| Nothing
| Epsilon
| Class (c : cclass)
| Seq (r1 r2 : regex)
| Alt (r1 r2 : regex)
| Star (r : regex).

Definition Char (c : ascii) : regex :=
  Class (Range (N_of_ascii c) (N_of_ascii c)).

(** A literal run of the pattern text. *)
Fixpoint Lit (s : string) : regex :=
  match s with
  | EmptyString => Epsilon
  | String c s' => Seq (Char c) (Lit s')
  end.

(** [r+] and [r{n}]. *)
Definition Plus (r : regex) : regex := Seq r (Star r).

Fixpoint Repeat (n : nat) (r : regex) : regex :=
  match n with
  | O => Epsilon
  | S n' => Seq r (Repeat n' r)
  end.

(** The code points of a UTF-8 encoded string. *)
Fixpoint utf8_decode (bs : list N) : list N :=
  match bs with
  | [] => []
  | b0 :: r0 =>
      if (b0 <? 128)%N then b0 :: utf8_decode r0
      else if (b0 <? 224)%N then
        match r0 with
        | b1 :: r1 => ((b0 - 192) * 64 + (b1 - 128))%N :: utf8_decode r1
        | [] => [b0]
        end
      else if (b0 <? 240)%N then
        match r0 with
        | b1 :: b2 :: r2 =>
            ((b0 - 224) * 4096 + (b1 - 128) * 64 + (b2 - 128))%N :: utf8_decode r2
        | _ => [b0]
        end
      else
        match r0 with
        | b1 :: b2 :: b3 :: r3 =>
            ((b0 - 240) * 262144 + (b1 - 128) * 4096 + (b2 - 128) * 64 + (b3 - 128))%N
              :: utf8_decode r3
        | _ => [b0]
        end
  end.

Definition code_points (s : string) : list N :=
  utf8_decode (map N_of_ascii (list_ascii_of_string s)).

Fixpoint nullable (r : regex) : bool :=
  match r with
  | Nothing => false
  | Epsilon => true
  | Class _ => false
  | Seq r1 r2 => nullable r1 && nullable r2
  | Alt r1 r2 => nullable r1 || nullable r2
  | Star _ => true
  end.

(** Constructors that drop the dead branches of a derivative. *)
Definition seq (r1 r2 : regex) : regex :=
  match r1, r2 with
  | Nothing, _ => Nothing
  | _, Nothing => Nothing
  | Epsilon, _ => r2
  | _, _ => Seq r1 r2
  end.

Definition alt (r1 r2 : regex) : regex :=
  match r1, r2 with
  | Nothing, _ => r2
  | _, Nothing => r1
  | _, _ => Alt r1 r2
  end.

Section Engine.
Context (rt : runtime).

Fixpoint in_class (c : cclass) (x : N) : bool :=
  match c with
  | Range lo hi => ((lo <=? x) && (x <=? hi))%N
  | Digit => if (x <? 128)%N then ascii_digit x else decimal_digit rt x
  | Union a b => in_class a x || in_class b x
  end.

Fixpoint deriv (x : N) (r : regex) : regex :=
  match r with
  | Nothing => Nothing
  | Epsilon => Nothing
  | Class c => if in_class c x then Epsilon else Nothing
  | Seq r1 r2 =>
      if nullable r1
      then alt (seq (deriv x r1) r2) (deriv x r2)
      else seq (deriv x r1) r2
  | Alt r1 r2 => alt (deriv x r1) (deriv x r2)
  | Star r1 => seq (deriv x r1) (Star r1)
  end.

Definition matches (r : regex) (xs : list N) : bool :=
  nullable (fold_left (fun r' x => deriv x r') xs r).

Definition full_match (r : regex) (s : string) : bool :=
  matches r (code_points s).
End Engine.

(** [[a-z0-9-]] and [[a-zA-Z0-9-]]. *)
Definition lower_digit_dash : cclass :=
  Union (Range 97 122) (Union (Range 48 57) (Range 45 45)).
Definition alnum_dash : cclass :=
  Union (Range 97 122) (Union (Range 65 90) (Union (Range 48 57) (Range 45 45))).

(** A pattern: its text, and the syntax tree of what stands between
    [^] and [$]. *)
Record pattern : Type := Pattern {
  source : string;
  body : regex
}.

Definition acm_certificate_arn : pattern :=
  Pattern "^arn:aws:acm:[a-z0-9-]+:\d{12}:certificate/[a-zA-Z0-9-]+$"
 (Seq (Lit "arn:aws:acm:")
 (Seq (Plus (Class lower_digit_dash))
 (Seq (Lit ":")
 (Seq (Repeat 12 (Class Digit))
 (Seq (Lit ":certificate/")
      (Plus (Class alnum_dash))))))).

Definition codeconnections_arn : pattern :=
  Pattern "^arn:aws:codeconnections:[a-z0-9-]+:\d{12}:connection/[a-zA-Z0-9-]+$"
 (Seq (Lit "arn:aws:codeconnections:")
 (Seq (Plus (Class lower_digit_dash))
 (Seq (Lit ":")
 (Seq (Repeat 12 (Class Digit))
 (Seq (Lit ":connection/")
      (Plus (Class alnum_dash))))))).

Definition is_match (rt : runtime) (p : pattern) (s : string) : bool :=
  full_match rt (body p) s.

End Regex.

(** ** Model construction

    pydantic validates every field of a model, in declaration order, and
    gathers the errors of all of them; an [after] model validator runs
    only when no field failed.  A keyword that names no field is ignored. *)

(** The error lines of an argument are located under its name. *)
Definition located {T} (name : string) (r : validation T) : validation T :=
  match r with
  | inr t => inr t
  | inl es => inl (map (fun e => ErrorDetails (name :: loc e) (type e)) es)
  end.

(** One declared field: the keyword's value through the field's
    validator, the default (not validated) when the keyword is absent, an
    error when there is neither. *)
Definition field {T} (kw : gmap string pyvalue) (name : string)
    (default : option T) (v : validator T) : validation T :=
  match kw !! name with
  | Some x => located name (v x)
  | None =>
      match default with
      | Some d => inr d
      | None => inl [ErrorDetails [name] missing]
      end
  end.

(** A [@model_validator(mode='after')] method either returns [self] or
    raises [ValueError(msg)], which pydantic reports as one [value_error]
    line carrying that message. *)
Definition model {A} (title : string) (fields : validation A)
    (after : A -> string + A) : result A :=
  match fields with
  | inl errs => Raise (ValidationError title errs)
  | inr self =>
      match after self with
      | inr self' => Ok self'
      | inl msg => Raise (ValidationError title [ErrorDetails [] (value_error msg)])
      end
  end.

Definition no_validator {A} (self : A) : string + A := inr self.

(** [Field(pattern=...)] on a [str] field. *)
Definition str_pattern (rt : runtime) (re : Regex.pattern) : validator string := fun x =>
  match validate_str x with
  | inr s =>
      if Regex.is_match rt re s then inr s
      else fail (string_pattern_mismatch (Regex.source re))
  | inl e => inl e
  end.

(** [Dict[str, str]]: every key and every value must be a [str]. *)
Fixpoint dict_str_str (d : list (pyvalue * pyvalue)) : validation (list (string * string)) :=
  match d with
  | [] => inr []
  | (k, v) :: d' =>
      vpure (fun k' v' rest => (k', v') :: rest)
        <@> validate_str k <@> validate_str v <@> dict_str_str d'
  end.

Definition validate_dict_str_str : validator (list (string * string)) := fun x =>
  match x with
  | PyDict d => dict_str_str d
  | _ => fail dict_type
  end.

(** ** enums.py *)

Inductive EnvironmentName : Type := DEV | STAGING | PROD.

Definition EnvironmentName_value (e : EnvironmentName) : string :=
  match e with
  | DEV => "dev"
  | STAGING => "staging"
  | PROD => "prod"
  end.

Inductive AwsRegion : Type :=
| EU_WEST_1 | EU_WEST_2 | EU_WEST_3 | EU_CENTRAL_1
| US_EAST_1 | US_EAST_2 | US_WEST_1 | US_WEST_2.

Definition AwsRegion_value (r : AwsRegion) : string :=
  match r with
  | EU_WEST_1 => "eu-west-1"
  | EU_WEST_2 => "eu-west-2"
  | EU_WEST_3 => "eu-west-3"
  | EU_CENTRAL_1 => "eu-central-1"
  | US_EAST_1 => "us-east-1"
  | US_EAST_2 => "us-east-2"
  | US_WEST_1 => "us-west-1"
  | US_WEST_2 => "us-west-2"
  end.

Inductive EcsTaskCpu : Type := CPU_256 | CPU_512 | CPU_1024 | CPU_2048 | CPU_4096.

Definition EcsTaskCpu_value (c : EcsTaskCpu) : Z :=
  match c with
  | CPU_256 => 256
  | CPU_512 => 512
  | CPU_1024 => 1024
  | CPU_2048 => 2048
  | CPU_4096 => 4096
  end.

Inductive EcsTaskMemory : Type :=
| MEM_512 | MEM_1024 | MEM_2048 | MEM_3072 | MEM_4096 | MEM_5120
| MEM_6144 | MEM_7168 | MEM_8192 | MEM_16384 | MEM_30720.

Definition EcsTaskMemory_value (m : EcsTaskMemory) : Z :=
  match m with
  | MEM_512 => 512
  | MEM_1024 => 1024
  | MEM_2048 => 2048
  | MEM_3072 => 3072
  | MEM_4096 => 4096
  | MEM_5120 => 5120
  | MEM_6144 => 6144
  | MEM_7168 => 7168
  | MEM_8192 => 8192
  | MEM_16384 => 16384
  | MEM_30720 => 30720
  end.

(** A field typed by a [str] enumeration takes the member whose value is
    the given string. *)
Fixpoint expected_values (values : list string) : string :=
  match values with
  | [] => ""
  | [v] => "'" +:+ v +:+ "'"
  | [v; w] => "'" +:+ v +:+ "' or '" +:+ w +:+ "'"
  | v :: rest => "'" +:+ v +:+ "', " +:+ expected_values rest
  end.

Definition enum_member {E} (members : list E) (value : E -> string) : validator E := fun x =>
  let e := enum_error (expected_values (map value members)) in
  match x with
  | PyStr s => of_option e (find (fun m => String.eqb (value m) s) members)
  | _ => fail e
  end.

Definition validate_EnvironmentName : validator EnvironmentName :=
  enum_member [DEV; STAGING; PROD] EnvironmentName_value.

Definition validate_AwsRegion : validator AwsRegion :=
  enum_member [EU_WEST_1; EU_WEST_2; EU_WEST_3; EU_CENTRAL_1;
               US_EAST_1; US_EAST_2; US_WEST_1; US_WEST_2] AwsRegion_value.

(** ** Attribute access on a [str]

    A [str] object has no instance dictionary: its attributes are those of
    the built-in class (the public ones are listed; the names written
    between double underscores are left out).  Any other name raises
    [AttributeError]. *)
Definition str_attributes : list string :=
  ["capitalize"; "casefold"; "center"; "count"; "encode"; "endswith";
   "expandtabs"; "find"; "format"; "format_map"; "index"; "isalnum";
   "isalpha"; "isascii"; "isdecimal"; "isdigit"; "isidentifier"; "islower";
   "isnumeric"; "isprintable"; "isspace"; "istitle"; "isupper"; "join";
   "ljust"; "lower"; "lstrip"; "maketrans"; "partition"; "removeprefix";
   "removesuffix"; "replace"; "rfind"; "rindex"; "rjust"; "rpartition";
   "rsplit"; "rstrip"; "split"; "splitlines"; "startswith"; "strip";
   "swapcase"; "title"; "translate"; "upper"; "zfill"]%string.

(** What an attribute of a [str] evaluates to: a method bound to it. *)
Inductive str_attribute : Type :=
| BoundMethod (self : string) (name : string).

Definition str_getattr (self : string) (name : string) : result str_attribute :=
  if existsb (String.eqb name) str_attributes
  then Ok (BoundMethod self name)
  else Raise (AttributeError "str" name).

(** ** base_config.py *)

Module BaseConfig.
Record t : Type := Build {
  env_name : EnvironmentName;
  project_name : string
}.

Definition env_name_str (self : t) : string :=
  EnvironmentName_value (env_name self).

Definition prefix (self : t) (base : string) : string :=
  project_name self +:+ "-" +:+ env_name_str self +:+ "-" +:+ base.

(** The dict literal, as its entries in insertion order. *)
Definition tags (self : t) : list (string * string) :=
  [("EnvName", env_name_str self);
   ("ProjectName", project_name self);
   ("ManagedBy", "CDK")]%string.
End BaseConfig.

Module AwsConfig.
Record t : Type := Build {
  account : string;
  region : AwsRegion
}.

Definition region_str (self : t) : string := AwsRegion_value (region self).

Definition new (kw : gmap string pyvalue) : result t :=
  model "AwsConfig"
    (vpure Build
      <@> field kw "account" None validate_str
      <@> field kw "region" None validate_AwsRegion)
    no_validator.
End AwsConfig.

Module VpcConfig.
Record t : Type := Build {
  cidr : string;
  max_azs : Z;
  reserved_azs : Z;
  nat_gateways : Z;
  automatic_subnet_creation : bool
}.

Definition new (rt : runtime) (kw : gmap string pyvalue) : result t :=
  model "VpcConfig"
    (vpure Build
      <@> field kw "cidr" (Some "10.0.0.0/16"%string) validate_str
      <@> field kw "max_azs" (Some 3) (validate_int rt)
      <@> field kw "reserved_azs" (Some 3) (validate_int rt)
      <@> field kw "nat_gateways" (Some 1) (validate_int rt)
      <@> field kw "automatic_subnet_creation" (Some true) validate_bool)
    no_validator.
End VpcConfig.

Module DatabaseConfig.
Record t : Type := Build {
  snapshot_identifier : option string;
  backup_retention : Z;
  instance_reader : bool;
  serverless_v2_min_capacity : spec_float;
  serverless_v2_max_capacity : spec_float;
  master_username : string
}.

Definition capacity_message (rt : runtime) (lo hi : spec_float) : string :=
  "serverless_v2_min_capacity (" +:+ float_repr rt lo +:+ ") "
  +:+ "must be less than serverless_v2_max_capacity (" +:+ float_repr rt hi +:+ ")".

Definition validate_capacity (rt : runtime) (self : t) : string + t :=
  if float_ge (serverless_v2_min_capacity self) (serverless_v2_max_capacity self)
  then inl (capacity_message rt (serverless_v2_min_capacity self)
                                (serverless_v2_max_capacity self))
  else inr self.

Definition new (rt : runtime) (kw : gmap string pyvalue) : result t :=
  model "DatabaseConfig"
    (vpure Build
      <@> field kw "snapshot_identifier" (Some None) validate_optional_str
      <@> field kw "backup_retention" (Some 2) (validate_int rt)
      <@> field kw "instance_reader" (Some false) validate_bool
      <@> field kw "serverless_v2_min_capacity" (Some float_0_5)
            (float_field_ge rt float_0_5 (validate_float rt))
      <@> field kw "serverless_v2_max_capacity" (Some float_2_0) (validate_float rt)
      <@> field kw "master_username" (Some "postgres"%string) validate_str)
    (validate_capacity rt).
End DatabaseConfig.

Module BackendConfig.
Record t : Type := Build {
  task_cpu : string;
  task_memory : string;
  desired_count : Z;
  certificate_arn : string;
  container_env_vars : list (string * string);
  auto_scaling_min_capacity : Z;
  auto_scaling_max_capacity : Z;
  ecr_repository_name : string;
  ecr_image_tag : string
}.

(** [self.task_cpu.value] and [self.task_memory.value]. *)
Definition task_cpu_int (self : t) : result str_attribute :=
  str_getattr (task_cpu self) "value".

Definition task_memory_int (self : t) : result str_attribute :=
  str_getattr (task_memory self) "value".

Definition auto_scaling_message (lo hi : Z) : string :=
  "auto_scaling_min_capacity (" +:+ int_str lo +:+ ") "
  +:+ "must be less than auto_scaling_max_capacity (" +:+ int_str hi +:+ ")".

Definition validate_auto_scaling (self : t) : string + t :=
  if auto_scaling_min_capacity self >=? auto_scaling_max_capacity self
  then inl (auto_scaling_message (auto_scaling_min_capacity self)
                                 (auto_scaling_max_capacity self))
  else inr self.

Definition default_certificate_arn : string :=
  "arn:aws:acm:eu-west-1:532673134317:certificate/905d0d16-87e8-4e89-a88c-b6053f472e81".

Definition new (rt : runtime) (kw : gmap string pyvalue) : result t :=
  model "BackendConfig"
    (vpure Build
      <@> field kw "task_cpu" (Some "500m"%string) validate_str
      <@> field kw "task_memory" (Some "512Mi"%string) validate_str
      <@> field kw "desired_count" (Some 1) (validate_int rt)
      <@> field kw "certificate_arn" (Some default_certificate_arn)
            (str_pattern rt Regex.acm_certificate_arn)
      <@> field kw "container_env_vars" (Some []) validate_dict_str_str
      <@> field kw "auto_scaling_min_capacity" (Some 1) (int_ge 1 (validate_int rt))
      <@> field kw "auto_scaling_max_capacity" (Some 5) (validate_int rt)
      <@> field kw "ecr_repository_name" (Some "services/ecs/fastapi_app"%string) validate_str
      <@> field kw "ecr_image_tag" (Some "lastest"%string) validate_str)
    validate_auto_scaling.
End BackendConfig.

Module FrontendConfig.
Record t : Type := Build {
  domain_name : string;
  certificate_arn : string;
  certificate_provider : string
}.

Definition default_certificate_arn : string :=
  "arn:aws:acm:us-east-1:532673134317:certificate/0755fa69-6f18-451a-8987-d98c395089b9".

Definition new (rt : runtime) (kw : gmap string pyvalue) : result t :=
  model "FrontendConfig"
    (vpure Build
      <@> field kw "domain_name" (Some "dev-frontend.piercuta.com"%string) validate_str
      <@> field kw "certificate_arn" (Some default_certificate_arn)
            (str_pattern rt Regex.acm_certificate_arn)
      <@> field kw "certificate_provider" (Some "acm"%string) validate_str)
    no_validator.
End FrontendConfig.

Definition default_github_connection_arn : string :=
  "arn:aws:codeconnections:eu-west-1:532673134317:connection/2a30a395-8d38-43ab-827b-f39a83c9986a".

Module CICDFronendConfig.
Record t : Type := Build {
  github_connection_arn : string;
  github_owner : string;
  github_frontend_repo : string;
  github_frontend_branch : string
}.

Definition new (rt : runtime) (kw : gmap string pyvalue) : result t :=
  model "CICDFronendConfig"
    (vpure Build
      <@> field kw "github_connection_arn" (Some default_github_connection_arn)
            (str_pattern rt Regex.codeconnections_arn)
      <@> field kw "github_owner" (Some "Piercuta"%string) validate_str
      <@> field kw "github_frontend_repo" (Some "full-stack-fastapi-front"%string) validate_str
      <@> field kw "github_frontend_branch" (Some "dev"%string) validate_str)
    no_validator.
End CICDFronendConfig.

Module CICDBackendConfig.
Record t : Type := Build {
  github_connection_arn : string;
  github_owner : string;
  github_backend_repo : string;
  github_backend_branch : string
}.

Definition new (rt : runtime) (kw : gmap string pyvalue) : result t :=
  model "CICDBackendConfig"
    (vpure Build
      <@> field kw "github_connection_arn" (Some default_github_connection_arn)
            (str_pattern rt Regex.codeconnections_arn)
      <@> field kw "github_owner" (Some "Piercuta"%string) validate_str
      <@> field kw "github_backend_repo" (Some "full-stack-fastapi-backend"%string) validate_str
      <@> field kw "github_backend_branch" (Some "dev"%string) validate_str)
    no_validator.
End CICDBackendConfig.

Module DnsConfig.
Record t : Type := Build {
  hosted_zone_id : string;
  zone_name : string;
  frontend_domain_name : string;
  backend_domain_name : string
}.

Definition new (kw : gmap string pyvalue) : result t :=
  model "DnsConfig"
    (vpure Build
      <@> field kw "hosted_zone_id" (Some "Z0068506UV3AK4JBKP59"%string) validate_str
      <@> field kw "zone_name" (Some "piercuta.com"%string) validate_str
      <@> field kw "frontend_domain_name" (Some "dev-frontend.piercuta.com"%string) validate_str
      <@> field kw "backend_domain_name" (Some "dev-backend.piercuta.com"%string) validate_str)
    no_validator.
End DnsConfig.

Module InfrastructureConfig.
(** The aggregate extends [BaseConfig]: its first two fields are the
    inherited ones, and the inherited methods apply through [base]. *)
Record t : Type := Build {
  base : BaseConfig.t;
  aws : AwsConfig.t;
  vpc : VpcConfig.t;
  database : DatabaseConfig.t;
  backend : BackendConfig.t;
  frontend : FrontendConfig.t;
  cicd_fronend : CICDFronendConfig.t;
  cicd_backend : CICDBackendConfig.t;
  dns : DnsConfig.t
}.

(** The call of [InfrastructureConfig] on the dict [create_config] builds:
    two strings and eight model instances, which pass as they are. *)
Definition new (env_name project_name : string)
    (aws : AwsConfig.t) (vpc : VpcConfig.t) (database : DatabaseConfig.t)
    (backend : BackendConfig.t) (frontend : FrontendConfig.t)
    (cicd_fronend : CICDFronendConfig.t) (cicd_backend : CICDBackendConfig.t)
    (dns : DnsConfig.t) : result t :=
  model "InfrastructureConfig"
    (vpure (fun e p => Build (BaseConfig.Build e p))
      <@> located "env_name" (validate_EnvironmentName (PyStr env_name))
      <@> located "project_name" (validate_str (PyStr project_name))
      <@> vpure aws <@> vpure vpc <@> vpure database <@> vpure backend
      <@> vpure frontend <@> vpure cicd_fronend <@> vpure cicd_backend
      <@> vpure dns)
    no_validator.
End InfrastructureConfig.

Coercion InfrastructureConfig.base : InfrastructureConfig.t >-> BaseConfig.t.

(** ** loader.py *)

(** What [yaml.safe_load] makes of a file's content: a document, or a
    parse error. *)
Inductive yaml_content : Type :=
| Malformed
| Document (v : pyvalue).

(** What the loader does to its surroundings, in order. *)
Inductive event : Type :=
| Open (path : string)
| Called (cls : string).

Record world : Type := World {
  files : gmap string yaml_content;
  trace : list event
}.

(** A computation that reads and changes the world and may raise. *)
Definition io (A : Type) : Type := world -> result A * world.

Definition ret {A} (a : A) : io A := fun w => (Ok a, w).

Definition raise {A} (e : exception) : io A := fun w => (Raise e, w).

Definition bind {A B} (m : io A) (k : A -> io B) : io B := fun w =>
  match m w with
  | (Ok a, w') => k a w'
  | (Raise e, w') => (Raise e, w')
  end.

Definition lift {A} (r : result A) : io A := fun w => (r, w).

Definition emit (e : event) : io unit := fun w =>
  (Ok tt, World (files w) (trace w ++ [e])).

Notation "x <- m ;; k" := (bind m (fun x => k))
  (at level 100, m at next level, right associativity).

(** [os.path.join] (posixpath). *)
Definition starts_with_sep (b : string) : bool :=
  match b with
  | String "/" _ => true
  | _ => false
  end.

Fixpoint ends_with_sep (p : string) : bool :=
  match p with
  | EmptyString => false
  | String c EmptyString => Ascii.eqb c "/"
  | String _ p' => ends_with_sep p'
  end.

Definition join_step (path b : string) : string :=
  if starts_with_sep b then b
  else if String.eqb path "" || ends_with_sep path then path +:+ b
  else path +:+ "/" +:+ b.

Definition os_path_join (a : string) (p : list string) : string :=
  fold_left join_step p a.

(** [d[key]] for a string key. *)
Definition str_key (k : string) (entry : pyvalue * pyvalue) : bool :=
  match fst entry with
  | PyStr s => String.eqb s k
  | _ => false
  end.

Definition subscript (v : pyvalue) (k : string) : result pyvalue :=
  match v with
  | PyDict d =>
      match find (str_key k) d with
      | Some entry => Ok (snd entry)
      | None => Raise (KeyError k)
      end
  | _ => Raise TypeError
  end.

(** Unpacking [v] into keywords: [v] must be a mapping whose keys are all
    strings. *)
Fixpoint keywords (d : list (pyvalue * pyvalue)) : option (list (string * pyvalue)) :=
  match d with
  | [] => Some []
  | (PyStr k, v) :: d' => option_map (cons (k, v)) (keywords d')
  | _ => None
  end.

Definition unpack (v : pyvalue) : result (gmap string pyvalue) :=
  match v with
  | PyDict d =>
      match keywords d with
      | Some kvs => Ok (list_to_map kvs)
      | None => Raise TypeError
      end
  | _ => Raise TypeError
  end.

Module ConfigLoader.
Record t : Type := Build {
  env_name : string;
  project_name : string;
  base_path : string
}.

(** [__init__]; [module_dir] is [os.path.dirname(os.path.abspath(__file__))]. *)
Definition init (module_dir env_name project_name : string) : t :=
  Build env_name project_name module_dir.

Definition config_path (self : t) : string :=
  os_path_join (base_path self) ["environments"; env_name self +:+ ".yaml"]%string.

Definition load_environment_config (self : t) : io pyvalue :=
  let config_path := config_path self in
  _ <- emit (Open config_path) ;;
  fun w =>
    match files w !! config_path with
    | None => (Raise (FileNotFoundError config_path), w)
    | Some Malformed => (Raise YAMLError, w)
    | Some (Document v) => (Ok v, w)
    end.

(** A sub-config built from the section [env_config[key]] unpacked into
    keywords: the subscript, the unpacking, the call. *)
Definition build {A} (env_config : pyvalue) (key cls : string)
    (new : gmap string pyvalue -> result A) : io A :=
  section <- lift (subscript env_config key) ;;
  kw <- lift (unpack section) ;;
  _ <- emit (Called cls) ;;
  lift (new kw).

Definition create_config (rt : runtime) (self : t) : io InfrastructureConfig.t :=
  env_config <- load_environment_config self ;;
  aws <- build env_config "aws" "AwsConfig" AwsConfig.new ;;
  vpc <- build env_config "vpc" "VpcConfig" (VpcConfig.new rt) ;;
  database <- build env_config "database" "DatabaseConfig" (DatabaseConfig.new rt) ;;
  backend <- build env_config "backend" "BackendConfig" (BackendConfig.new rt) ;;
  frontend <- build env_config "frontend" "FrontendConfig" (FrontendConfig.new rt) ;;
  cicd_fronend <- build env_config "cicd_fronend" "CICDFronendConfig" (CICDFronendConfig.new rt) ;;
  cicd_backend <- build env_config "cicd_backend" "CICDBackendConfig" (CICDBackendConfig.new rt) ;;
  dns <- build env_config "dns" "DnsConfig" DnsConfig.new ;;
  _ <- emit (Called "InfrastructureConfig") ;;
  lift (InfrastructureConfig.new (env_name self) (project_name self)
          aws vpc database backend frontend cicd_fronend cicd_backend dns).
End ConfigLoader.

(** ** An instance of the library parameters

    Used to run the model on concrete inputs: no digit beyond ASCII for
    [\d], decimal strings for int fields, ints rounded to the nearest
    binary64, integral floats for int fields, and a plain rendering of
    floats. *)
Definition decimal_str_as_int (s : string) : option Z :=
  option_map Z.of_int (NilZero.int_of_string s).

Definition nearest_float (z : Z) : option spec_float :=
  match binary_normalize 53 1024 z 0 false with
  | S754_infinity _ => None
  | f => Some f
  end.

Definition integral_float (f : spec_float) : option Z :=
  match f with
  | S754_zero _ => Some 0
  | S754_finite s m e =>
      let sign := if s then (-1) else 1 in
      match e with
      | Zneg p =>
          if (Z.pos m mod 2 ^ Z.pos p =? 0) then Some (sign * (Z.pos m / 2 ^ Z.pos p))
          else None
      | _ => Some (sign * Z.pos m * 2 ^ e)
      end
  | _ => None
  end.

Definition plain_float_repr (f : spec_float) : string :=
  match f with
  | S754_zero s => if s then "-0.0" else "0.0"
  | S754_infinity s => if s then "-inf" else "inf"
  | S754_nan => "nan"
  | S754_finite s m e =>
      (if s then "-" else "") +:+ int_str (Z.pos m) +:+ "*2**" +:+ int_str e
  end.

Definition sample_runtime : runtime := {|
  str_as_int := decimal_str_as_int;
  str_as_float := fun _ => None;
  int_as_float := nearest_float;
  float_as_int := integral_float;
  float_repr := plain_float_repr;
  decimal_digit := fun _ => false
|}.

(** ** Python equality on values

    [a == b]: numbers compare by value across [bool], [int] and [float];
    a string equals only a string; sequences compare element by element
    and mappings entry by entry, whatever their order. *)
Definition as_number (v : pyvalue) : option (Z + spec_float) :=
  match v with
  | PyBool b => Some (inl (if b then 1 else 0))
  | PyInt z => Some (inl z)
  | PyFloat f => Some (inr f)
  | _ => None
  end.

Definition int_eq_float (z : Z) (f : spec_float) : bool :=
  match integral_float f with
  | Some z' => z =? z'
  | None => false
  end.

Definition number_eq (x y : Z + spec_float) : bool :=
  match x, y with
  | inl a, inl b => a =? b
  | inr f, inr g => SFeqb f g
  | inl a, inr g => int_eq_float a g
  | inr f, inl b => int_eq_float b f
  end.

Fixpoint py_eq (a b : pyvalue) {struct a} : bool :=
  match a, b with
  | PyNone, PyNone => true
  | PyStr s, PyStr t => String.eqb s t
  | PyList l1, PyList l2 =>
      (fix go (xs ys : list pyvalue) : bool :=
         match xs, ys with
         | [], [] => true
         | x :: xs', y :: ys' => py_eq x y && go xs' ys'
         | _, _ => false
         end) l1 l2
  | PyDict d1, PyDict d2 =>
      Nat.eqb (length d1) (length d2) &&
      (fix every (es : list (pyvalue * pyvalue)) : bool :=
         match es with
         | [] => true
         | (k, v) :: es' =>
             existsb (fun e => py_eq k (fst e) && py_eq v (snd e)) d2 && every es'
         end) d1
  | (PyBool _ | PyInt _ | PyFloat _), (PyBool _ | PyInt _ | PyFloat _) =>
      match as_number a, as_number b with
      | Some x, Some y => number_eq x y
      | _, _ => false
      end
  | _, _ => false
  end.

(** ** What the specification says of a loaded field

    A field holds the file's value when the section gives one (as the
    field's type reads it), and the schema default otherwise. *)
Definition from_file {T} (kw : gmap string pyvalue) (name : string) (default : T)
    (convert : validator T) (x : T) : Prop :=
  match kw !! name with
  | Some given => convert given = inr x
  | None => x = default
  end.

(** A field without a default is always taken from the file. *)
Definition required {T} (kw : gmap string pyvalue) (name : string)
    (convert : validator T) (x : T) : Prop :=
  exists given, kw !! name = Some given /\ convert given = inr x.

(** A section of the document, unpacked into keywords. *)
Definition section (doc : pyvalue) (key : string)
    (P : gmap string pyvalue -> Prop) : Prop :=
  exists s kw, subscript doc key = Ok s /\ unpack s = Ok kw /\ P kw.

Definition aws_from_file (kw : gmap string pyvalue) (c : AwsConfig.t) : Prop :=
  required kw "account" validate_str (AwsConfig.account c) /\
  required kw "region" validate_AwsRegion (AwsConfig.region c).

Definition vpc_from_file (rt : runtime) (kw : gmap string pyvalue) (c : VpcConfig.t) : Prop :=
  from_file kw "cidr" "10.0.0.0/16"%string validate_str (VpcConfig.cidr c) /\
  from_file kw "max_azs" 3 (validate_int rt) (VpcConfig.max_azs c) /\
  from_file kw "reserved_azs" 3 (validate_int rt) (VpcConfig.reserved_azs c) /\
  from_file kw "nat_gateways" 1 (validate_int rt) (VpcConfig.nat_gateways c) /\
  from_file kw "automatic_subnet_creation" true validate_bool
    (VpcConfig.automatic_subnet_creation c).

Definition database_from_file (rt : runtime) (kw : gmap string pyvalue)
    (c : DatabaseConfig.t) : Prop :=
  from_file kw "snapshot_identifier" None validate_optional_str
    (DatabaseConfig.snapshot_identifier c) /\
  from_file kw "backup_retention" 2 (validate_int rt) (DatabaseConfig.backup_retention c) /\
  from_file kw "instance_reader" false validate_bool (DatabaseConfig.instance_reader c) /\
  from_file kw "serverless_v2_min_capacity" float_0_5 (validate_float rt)
    (DatabaseConfig.serverless_v2_min_capacity c) /\
  from_file kw "serverless_v2_max_capacity" float_2_0 (validate_float rt)
    (DatabaseConfig.serverless_v2_max_capacity c) /\
  from_file kw "master_username" "postgres"%string validate_str
    (DatabaseConfig.master_username c).

Definition backend_from_file (rt : runtime) (kw : gmap string pyvalue)
    (c : BackendConfig.t) : Prop :=
  from_file kw "task_cpu" "500m"%string validate_str (BackendConfig.task_cpu c) /\
  from_file kw "task_memory" "512Mi"%string validate_str (BackendConfig.task_memory c) /\
  from_file kw "desired_count" 1 (validate_int rt) (BackendConfig.desired_count c) /\
  from_file kw "certificate_arn"
    "arn:aws:acm:eu-west-1:532673134317:certificate/905d0d16-87e8-4e89-a88c-b6053f472e81"%string
    validate_str (BackendConfig.certificate_arn c) /\
  from_file kw "container_env_vars" [] validate_dict_str_str
    (BackendConfig.container_env_vars c) /\
  from_file kw "auto_scaling_min_capacity" 1 (validate_int rt)
    (BackendConfig.auto_scaling_min_capacity c) /\
  from_file kw "auto_scaling_max_capacity" 5 (validate_int rt)
    (BackendConfig.auto_scaling_max_capacity c) /\
  from_file kw "ecr_repository_name" "services/ecs/fastapi_app"%string validate_str
    (BackendConfig.ecr_repository_name c) /\
  from_file kw "ecr_image_tag" "lastest"%string validate_str (BackendConfig.ecr_image_tag c).

Definition frontend_from_file (kw : gmap string pyvalue) (c : FrontendConfig.t) : Prop :=
  from_file kw "domain_name" "dev-frontend.piercuta.com"%string validate_str
    (FrontendConfig.domain_name c) /\
  from_file kw "certificate_arn"
    "arn:aws:acm:us-east-1:532673134317:certificate/0755fa69-6f18-451a-8987-d98c395089b9"%string
    validate_str (FrontendConfig.certificate_arn c) /\
  from_file kw "certificate_provider" "acm"%string validate_str
    (FrontendConfig.certificate_provider c).

Definition cicd_fronend_from_file (kw : gmap string pyvalue)
    (c : CICDFronendConfig.t) : Prop :=
  from_file kw "github_connection_arn"
    "arn:aws:codeconnections:eu-west-1:532673134317:connection/2a30a395-8d38-43ab-827b-f39a83c9986a"%string
    validate_str (CICDFronendConfig.github_connection_arn c) /\
  from_file kw "github_owner" "Piercuta"%string validate_str
    (CICDFronendConfig.github_owner c) /\
  from_file kw "github_frontend_repo" "full-stack-fastapi-front"%string validate_str
    (CICDFronendConfig.github_frontend_repo c) /\
  from_file kw "github_frontend_branch" "dev"%string validate_str
    (CICDFronendConfig.github_frontend_branch c).

Definition cicd_backend_from_file (kw : gmap string pyvalue)
    (c : CICDBackendConfig.t) : Prop :=
  from_file kw "github_connection_arn"
    "arn:aws:codeconnections:eu-west-1:532673134317:connection/2a30a395-8d38-43ab-827b-f39a83c9986a"%string
    validate_str (CICDBackendConfig.github_connection_arn c) /\
  from_file kw "github_owner" "Piercuta"%string validate_str
    (CICDBackendConfig.github_owner c) /\
  from_file kw "github_backend_repo" "full-stack-fastapi-backend"%string validate_str
    (CICDBackendConfig.github_backend_repo c) /\
  from_file kw "github_backend_branch" "dev"%string validate_str
    (CICDBackendConfig.github_backend_branch c).

Definition dns_from_file (kw : gmap string pyvalue) (c : DnsConfig.t) : Prop :=
  from_file kw "hosted_zone_id" "Z0068506UV3AK4JBKP59"%string validate_str
    (DnsConfig.hosted_zone_id c) /\
  from_file kw "zone_name" "piercuta.com"%string validate_str (DnsConfig.zone_name c) /\
  from_file kw "frontend_domain_name" "dev-frontend.piercuta.com"%string validate_str
    (DnsConfig.frontend_domain_name c) /\
  from_file kw "backend_domain_name" "dev-backend.piercuta.com"%string validate_str
    (DnsConfig.backend_domain_name c).

(** A file value that already has the type of its field is taken as it is. *)
Definition typed_values_kept (rt : runtime) : Prop :=
  (forall s, validate_str (PyStr s) = inr s) /\
  (forall s, validate_optional_str (PyStr s) = inr (Some s)) /\
  validate_optional_str PyNone = inr None /\
  (forall z, validate_int rt (PyInt z) = inr z) /\
  (forall f, validate_float rt (PyFloat f) = inr f) /\
  (forall b, validate_bool (PyBool b) = inr b) /\
  (forall r, validate_AwsRegion (PyStr (AwsRegion_value r)) = inr r) /\
  (forall l, validate_dict_str_str
               (PyDict (map (fun e => (PyStr (fst e), PyStr (snd e))) l)) = inr l).

(** ** Global tags on a stack

    What the configuration does to a stack is to tag it: a stack is
    modelled by the tags it carries, and [Tags.of(stack).add(key, value)]
    sets the tag [key] to [value]. *)
Record Stack : Type := MkStack {
  stack_tags : gmap string string
}.

Definition Tags_add (stack : Stack) (key value : string) : Stack :=
  MkStack (<[key := value]> (stack_tags stack)).

(** [BaseConfig.add_stack_global_tags]: the loop over [self.tags.items()]. *)
Definition add_stack_global_tags (self : BaseConfig.t) (stack : Stack) : Stack :=
  fold_left (fun st kv => Tags_add st (fst kv) (snd kv)) (BaseConfig.tags self) stack.

(** ** app.py: the names of the stacks

    The [stack_name] arguments of the stacks [app.py] instantiates, in
    order. *)
Definition stack_bases : list string :=
  ["network-stack"; "security-stack"; "database-stack"; "eks-backend-stack";
   "frontend-stack"; "cicd-k8s-deploy-stack"]%string.

Definition app_stack_names (config : InfrastructureConfig.t) : list string :=
  map (BaseConfig.prefix config) stack_bases.

(** ** cicd_backend_stack.py: the variables of the backend build

    Python dicts as finite maps: a literal or an [update] binds its
    entries from first to last, a later one replacing an earlier one. *)
Definition dict_update (d : gmap string string) (entries : list (string * string))
    : gmap string string :=
  fold_left (fun m kv => <[fst kv := snd kv]> m) entries d.

Module CICDBackendStack.

Definition ssm_alb_dns_parameter_name (config : InfrastructureConfig.t) : string :=
  "/" +:+ BaseConfig.project_name config +:+ "/" +:+ BaseConfig.env_name_str config
  +:+ "/fastapi/ingress_dns".

(** The dict literal of [_create_backend_pipeline].  The role ARN and the
    repository URI come from CDK constructs, the database endpoint and
    secret ARN from the constructor's arguments. *)
Definition builtin_env_vars (config : InfrastructureConfig.t)
    (service_account_role_arn repository_uri db_endpoint db_secret_arn : string)
    : list (string * string) :=
  [("SERVICE_ACCOUNT_ROLE_ARN", service_account_role_arn);
   ("ECR_REPOSITORY_URI", repository_uri);
   ("BRANCH_NAME",
      CICDBackendConfig.github_backend_branch (InfrastructureConfig.cicd_backend config));
   ("CLUSTER_NAME", "toto");
   ("FASTAPI_IMAGE",
      repository_uri +:+ ":"
      +:+ BackendConfig.ecr_image_tag (InfrastructureConfig.backend config));
   ("ASG_MIN_CAPACITY",
      int_str (BackendConfig.auto_scaling_min_capacity (InfrastructureConfig.backend config)));
   ("ASG_MAX_CAPACITY",
      int_str (BackendConfig.auto_scaling_max_capacity (InfrastructureConfig.backend config)));
   ("ASG_DESIRED_CAPACITY",
      int_str (BackendConfig.desired_count (InfrastructureConfig.backend config)));
   ("CERTIFICATE_ARN", BackendConfig.certificate_arn (InfrastructureConfig.backend config));
   ("DOMAIN_NAME", DnsConfig.backend_domain_name (InfrastructureConfig.dns config));
   ("SSM_PARAMETER_NAME", ssm_alb_dns_parameter_name config);
   ("ENV_NAME", BaseConfig.env_name_str config);
   ("PROJECT_NAME", BaseConfig.project_name config);
   ("POSTGRES_SERVER", db_endpoint);
   ("POSTGRES_USER", DatabaseConfig.master_username (InfrastructureConfig.database config));
   ("FRONTEND_HOST",
      "https://" +:+ FrontendConfig.domain_name (InfrastructureConfig.frontend config));
   ("AWS_REGION", AwsConfig.region_str (InfrastructureConfig.aws config));
   ("AWS_SECRET_ARN", db_secret_arn)]%string.

(** [env_vars] after [env_vars.update(self.config.backend.container_env_vars)]. *)
Definition env_vars (config : InfrastructureConfig.t)
    (service_account_role_arn repository_uri db_endpoint db_secret_arn : string)
    : gmap string string :=
  dict_update
    (dict_update ∅
       (builtin_env_vars config service_account_role_arn repository_uri
          db_endpoint db_secret_arn))
    (BackendConfig.container_env_vars (InfrastructureConfig.backend config)).

End CICDBackendStack.

(** ** The names of the schema

    The sections [create_config] reads, the classes it constructs, and
    the fields each sub-config declares. *)
Definition section_names : list string :=
  ["aws"; "vpc"; "database"; "backend"; "frontend"; "cicd_fronend";
   "cicd_backend"; "dns"]%string.

Definition model_names : list string :=
  ["AwsConfig"; "VpcConfig"; "DatabaseConfig"; "BackendConfig"; "FrontendConfig";
   "CICDFronendConfig"; "CICDBackendConfig"; "DnsConfig"; "InfrastructureConfig"]%string.

Definition AwsConfig_fields : list string := ["account"; "region"]%string.
Definition VpcConfig_fields : list string :=
  ["cidr"; "max_azs"; "reserved_azs"; "nat_gateways"; "automatic_subnet_creation"]%string.
Definition DatabaseConfig_fields : list string :=
  ["snapshot_identifier"; "backup_retention"; "instance_reader";
   "serverless_v2_min_capacity"; "serverless_v2_max_capacity"; "master_username"]%string.
Definition BackendConfig_fields : list string :=
  ["task_cpu"; "task_memory"; "desired_count"; "certificate_arn"; "container_env_vars";
   "auto_scaling_min_capacity"; "auto_scaling_max_capacity"; "ecr_repository_name";
   "ecr_image_tag"]%string.
Definition FrontendConfig_fields : list string :=
  ["domain_name"; "certificate_arn"; "certificate_provider"]%string.
Definition CICDFronendConfig_fields : list string :=
  ["github_connection_arn"; "github_owner"; "github_frontend_repo";
   "github_frontend_branch"]%string.
Definition CICDBackendConfig_fields : list string :=
  ["github_connection_arn"; "github_owner"; "github_backend_repo";
   "github_backend_branch"]%string.
Definition DnsConfig_fields : list string :=
  ["hosted_zone_id"; "zone_name"; "frontend_domain_name"; "backend_domain_name"]%string.

(** ** The steps of [create_config]

    One step per entry of the dict [create_config] builds before the
    aggregate: the section it reads, the class it calls, and the call. *)
Record step : Type := Step {
  step_key : string;
  step_cls : string;
  step_type : Type;
  step_new : gmap string pyvalue -> result step_type
}.

Definition steps (rt : runtime) : list step :=
  [Step "aws" "AwsConfig" AwsConfig.t AwsConfig.new;
   Step "vpc" "VpcConfig" VpcConfig.t (VpcConfig.new rt);
   Step "database" "DatabaseConfig" DatabaseConfig.t (DatabaseConfig.new rt);
   Step "backend" "BackendConfig" BackendConfig.t (BackendConfig.new rt);
   Step "frontend" "FrontendConfig" FrontendConfig.t (FrontendConfig.new rt);
   Step "cicd_fronend" "CICDFronendConfig" CICDFronendConfig.t (CICDFronendConfig.new rt);
   Step "cicd_backend" "CICDBackendConfig" CICDBackendConfig.t (CICDBackendConfig.new rt);
   Step "dns" "DnsConfig" DnsConfig.t DnsConfig.new].

(** A step builds its sub-config from the document. *)
Definition builds (doc : pyvalue) (s : step) : Prop :=
  section doc (step_key s) (fun kw => exists c, step_new s kw = Ok c).

(** A step raises before its class is called: the section is missing, or
    cannot be unpacked into keywords. *)
Definition fails_before_call (doc : pyvalue) (s : step) (e : exception) : Prop :=
  subscript doc (step_key s) = Raise e
  \/ exists sec, subscript doc (step_key s) = Ok sec /\ unpack sec = Raise e.

(** A step raises in the call of its class. *)
Definition fails_in_call (doc : pyvalue) (s : step) (e : exception) : Prop :=
  section doc (step_key s) (fun kw => step_new s kw = Raise e).

(** The error of an environment name outside the enumeration. *)
Definition env_name_error : exception :=
  ValidationError "InfrastructureConfig"
    [ErrorDetails ["env_name"%string] (enum_error "'dev', 'staging' or 'prod'")].

(** ** Sample environment files *)

(** The smallest document [create_config] accepts: every section is
    present, and only the two required fields of [aws] are given. *)
Definition sample_document : pyvalue :=
  PyDict
    [(PyStr "aws", PyDict [(PyStr "account", PyStr "123456789012");
                           (PyStr "region", PyStr "eu-west-1")]);
     (PyStr "vpc", PyDict [(PyStr "max_azs", PyInt 2)]);
     (PyStr "database", PyDict []);
     (PyStr "backend", PyDict []);
     (PyStr "frontend", PyDict []);
     (PyStr "cicd_fronend", PyDict []);
     (PyStr "cicd_backend", PyDict []);
     (PyStr "dns", PyDict [])].

(** The same document with [instance_reader: "yes"] (a quoted string) in
    the database section. *)
Definition quoted_flag_document : pyvalue :=
  PyDict
    [(PyStr "aws", PyDict [(PyStr "account", PyStr "123456789012");
                           (PyStr "region", PyStr "eu-west-1")]);
     (PyStr "vpc", PyDict []);
     (PyStr "database", PyDict [(PyStr "instance_reader", PyStr "yes")]);
     (PyStr "backend", PyDict []);
     (PyStr "frontend", PyDict []);
     (PyStr "cicd_fronend", PyDict []);
     (PyStr "cicd_backend", PyDict []);
     (PyStr "dns", PyDict [])].

(** A document that stops after the [aws] section; one whose [vpc]
    section is left empty ([vpc:] with nothing after it, which YAML reads
    as null); one whose database capacities are equal. *)
Definition sample_aws_section : pyvalue * pyvalue :=
  (PyStr "aws", PyDict [(PyStr "account", PyStr "123456789012");
                        (PyStr "region", PyStr "eu-west-1")]).

Definition no_vpc_document : pyvalue := PyDict [sample_aws_section].

Definition null_vpc_document : pyvalue :=
  PyDict [sample_aws_section; (PyStr "vpc", PyNone)].

Definition equal_capacities_document : pyvalue :=
  PyDict
    [sample_aws_section;
     (PyStr "vpc", PyDict []);
     (PyStr "database", PyDict [(PyStr "serverless_v2_min_capacity", PyFloat float_2_0)]);
     (PyStr "backend", PyDict [])].

(** The aggregate loaded from [sample_document] for "dev" and "acme",
    and the same with one container variable. *)
Definition sample_config : InfrastructureConfig.t :=
  InfrastructureConfig.Build (BaseConfig.Build DEV "acme")
    (AwsConfig.Build "123456789012" EU_WEST_1)
    (VpcConfig.Build "10.0.0.0/16" 2 3 1 true)
    (DatabaseConfig.Build None 2 false float_0_5 float_2_0 "postgres")
    (BackendConfig.Build "500m" "512Mi" 1 BackendConfig.default_certificate_arn
       [] 1 5 "services/ecs/fastapi_app" "lastest")
    (FrontendConfig.Build "dev-frontend.piercuta.com"
       FrontendConfig.default_certificate_arn "acm")
    (CICDFronendConfig.Build default_github_connection_arn "Piercuta"
       "full-stack-fastapi-front" "dev")
    (CICDBackendConfig.Build default_github_connection_arn "Piercuta"
       "full-stack-fastapi-backend" "dev")
    (DnsConfig.Build "Z0068506UV3AK4JBKP59" "piercuta.com"
       "dev-frontend.piercuta.com" "dev-backend.piercuta.com").

Definition overriding_config : InfrastructureConfig.t :=
  InfrastructureConfig.Build (InfrastructureConfig.base sample_config)
    (InfrastructureConfig.aws sample_config)
    (InfrastructureConfig.vpc sample_config)
    (InfrastructureConfig.database sample_config)
    (BackendConfig.Build "500m" "512Mi" 1 BackendConfig.default_certificate_arn
       [("POSTGRES_USER", "app"); ("LOG_LEVEL", "debug")]%string
       1 5 "services/ecs/fastapi_app" "lastest")
    (InfrastructureConfig.frontend sample_config)
    (InfrastructureConfig.cicd_fronend sample_config)
    (InfrastructureConfig.cicd_backend sample_config)
    (InfrastructureConfig.dns sample_config).

Definition sample_loader : ConfigLoader.t :=
  ConfigLoader.init "/app/cdk/config" "dev" "acme".

(** ** Events and world-independence *)

Definition is_call (e : event) : bool :=
  match e with Called _ => true | Open _ => false end.

(** A computation whose result does not depend on the world, and which
    only adds constructor calls to the trace. *)
Definition reads_nothing {A} (m : io A) : Prop :=
  exists r calls,
    forallb is_call calls = true /\
    forall w, m w = (r, World (files w) (trace w ++ calls)).

(** * Properties *)

(** ** Applicative validation and model construction *)

Lemma vap_inr_inv {A B} (f : validation (A -> B)) (x : validation A) (b : B) :
  f <@> x = inr b -> exists g a, f = inr g /\ x = inr a /\ b = g a.
Proof.
  destruct f as [e1 | g], x as [e2 | a]; simpl; intros H; try discriminate.
  injection H as <-. eauto.
Qed.

Lemma model_ok_inv {A} title (fields : validation A) after (c : A) :
  model title fields after = Ok c ->
  exists self, fields = inr self /\ after self = inr c.
Proof.
  unfold model. destruct fields as [es | self]; [discriminate |].
  destruct (after self) as [msg | c'] eqn:E; [discriminate |].
  intros H. injection H as <-. eauto.
Qed.

Lemma model_fails {A} title (fields : validation A) after :
  (forall self, fields = inr self -> exists msg, after self = inl msg) ->
  is_validation_error (model title fields after) = true.
Proof.
  intros H. unfold model. destruct fields as [es | self]; [reflexivity |].
  destruct (H self eq_refl) as [msg ->]. reflexivity.
Qed.

(** Splits [H : vpure Build <@> f1 <@> ... <@> fn = inr self] into one
    equation per field. *)
Ltac vap_inv H :=
  repeat
    (let g := fresh "g" in
     let a := fresh "a" in
     let Hf := fresh "Hf" in
     let Hx := fresh "Hx" in
     apply vap_inr_inv in H; destruct H as (g & a & Hf & Hx & ?H);
     subst; rename Hf into H);
  unfold vpure in H; injection H as <-.

(** Two readings of one field give one value. *)
Ltac same_field :=
  match goal with
  | H1 : ?t = inr ?x, H2 : ?t = inr ?y |- _ =>
      assert (x = y) by congruence; subst; clear H2
  end.

Lemma located_inr {T} name (r : validation T) x :
  located name r = inr x -> r = inr x.
Proof. destruct r; simpl; congruence. Qed.

Lemma field_from_file {T} kw name (d : T) v x :
  field kw name (Some d) v = inr x -> from_file kw name d v x.
Proof.
  unfold field, from_file. destruct (kw !! name) as [given |].
  - apply located_inr.
  - congruence.
Qed.

Lemma field_required {T} kw name (v : validator T) x :
  field kw name None v = inr x -> required kw name v x.
Proof.
  unfold field, required. destruct (kw !! name) as [given |]; [| discriminate].
  intros H. exists given. split; [reflexivity | exact (located_inr _ _ _ H)].
Qed.

Lemma field_given {T} kw name (d : option T) v given x :
  kw !! name = Some given -> v given = inr x -> field kw name d v = inr x.
Proof. intros Hk Hv. unfold field. rewrite Hk, Hv. reflexivity. Qed.

(** ** Substrings *)

Lemma prefix_app (p s : string) : String.prefix p (p +:+ s) = true.
Proof.
  induction p as [| c p IH]; simpl.
  - destruct s; reflexivity.
  - destruct (Ascii.ascii_dec c c) as [_ | n]; [exact IH | contradiction].
Qed.

Lemma contains_app (pre sub post : string) :
  contains (pre +:+ sub +:+ post) sub = true.
Proof.
  induction pre as [| c pre IH].
  - change (contains (sub +:+ post) sub = true).
    pose proof (prefix_app sub post) as H.
    destruct (sub +:+ post); cbn [contains]; rewrite H; reflexivity.
  - change (contains (String c (pre +:+ sub +:+ post)) sub = true).
    cbn [contains]. rewrite IH. apply orb_true_r.
Qed.

(** ** Float comparison *)

Lemma SFcompare_antisym (x y : spec_float) (c : comparison) :
  SFcompare x y = Some c -> SFcompare y x = Some (CompOpp c).
Proof.
  destruct x as [sx | sx | | sx mx ex], y as [sy | sy | | sy my ey]; simpl;
    try discriminate;
    try (destruct sx; intros H; injection H as <-; reflexivity);
    try (destruct sy; intros H; injection H as <-; reflexivity);
    try (destruct sx, sy; intros H; injection H as <-; reflexivity).
  intros H. injection H as <-. f_equal.
  pose proof (Pos.compare_cont_antisym mx my Eq) as Hm. simpl in Hm.
  rewrite (Z.compare_antisym ex ey), <- Hm.
  destruct sx, sy, (ex ?= ey), (Pos.compare_cont Eq mx my); reflexivity.
Qed.

Lemma float_lt_not_ge (x y : spec_float) :
  float_lt x y = true -> float_ge x y = false.
Proof.
  unfold float_ge, float_lt, SFleb, SFltb.
  destruct (SFcompare x y) as [c |] eqn:E; [| discriminate].
  rewrite (SFcompare_antisym _ _ _ E). destruct c; simpl; congruence.
Qed.

(** ** The patterns on the schema's own defaults *)

Example default_arns_match (rt : runtime) :
  Regex.is_match rt Regex.acm_certificate_arn BackendConfig.default_certificate_arn = true
  /\ Regex.is_match rt Regex.acm_certificate_arn FrontendConfig.default_certificate_arn = true
  /\ Regex.is_match rt Regex.codeconnections_arn default_github_connection_arn = true.
Proof. repeat split. Qed.

Example malformed_arns_do_not_match (rt : runtime) :
  Regex.is_match rt Regex.acm_certificate_arn
    "arn:aws:acm:eu-west-1:12345:certificate/abc" = false
  /\ Regex.is_match rt Regex.acm_certificate_arn
       "arn:aws:acm:eu-west-1:532673134317:certificate/abc " = false
  /\ Regex.is_match rt Regex.codeconnections_arn
       BackendConfig.default_certificate_arn = false.
Proof. repeat split. Qed.

(** ** Naming helper and tags *)

(** C8: on every aggregate, [prefix(base)] is the project name, the
    environment name and [base] joined by dashes; on an aggregate whose
    project is "acme" and whose environment is "dev",
    [prefix("network-stack")] is exactly "acme-dev-network-stack". *)
Theorem prefix_is_project_env_base (cfg : InfrastructureConfig.t) (base : string) :
  BaseConfig.prefix cfg base =
    String.concat "-"
      [BaseConfig.project_name cfg; EnvironmentName_value (BaseConfig.env_name cfg); base]
  /\ BaseConfig.prefix
       (InfrastructureConfig.Build (BaseConfig.Build DEV "acme")
          (InfrastructureConfig.aws cfg) (InfrastructureConfig.vpc cfg)
          (InfrastructureConfig.database cfg) (InfrastructureConfig.backend cfg)
          (InfrastructureConfig.frontend cfg) (InfrastructureConfig.cicd_fronend cfg)
          (InfrastructureConfig.cicd_backend cfg) (InfrastructureConfig.dns cfg))
       "network-stack"
     = "acme-dev-network-stack"%string.
Proof. split; reflexivity. Qed.

(** C9: on every aggregate, [tags] is the mapping with exactly the three
    entries EnvName (the environment name), ProjectName (the project name)
    and ManagedBy ("CDK"); with project "acme" and environment "dev" it is
    EnvName "dev", ProjectName "acme", ManagedBy "CDK". *)
Theorem tags_are_the_standard_three (cfg : InfrastructureConfig.t) :
  (list_to_map (BaseConfig.tags cfg) : gmap string string) =
    {[ "EnvName"%string := EnvironmentName_value (BaseConfig.env_name cfg);
       "ProjectName"%string := BaseConfig.project_name cfg;
       "ManagedBy"%string := "CDK"%string ]}
  /\ map fst (BaseConfig.tags cfg) = ["EnvName"; "ProjectName"; "ManagedBy"]%string
  /\ BaseConfig.tags
       (InfrastructureConfig.Build (BaseConfig.Build DEV "acme")
          (InfrastructureConfig.aws cfg) (InfrastructureConfig.vpc cfg)
          (InfrastructureConfig.database cfg) (InfrastructureConfig.backend cfg)
          (InfrastructureConfig.frontend cfg) (InfrastructureConfig.cicd_fronend cfg)
          (InfrastructureConfig.cicd_backend cfg) (InfrastructureConfig.dns cfg))
     = [("EnvName", "dev"); ("ProjectName", "acme"); ("ManagedBy", "CDK")]%string.
Proof.
  split; [| split; reflexivity].
  unfold BaseConfig.tags. cbn [list_to_map foldr uncurry fst snd].
  rewrite insert_empty. reflexivity.
Qed.

(** ** The integer accessors of the backend *)

(** C10: on every [BackendConfig], reading [task_cpu_int] or
    [task_memory_int] raises: [task_cpu] and [task_memory] are plain
    strings, which have no attribute [value].  This includes the
    default-constructed instance, whose strings are "500m" and "512Mi". *)
Theorem task_int_accessors_raise (rt : runtime) (cfg : BackendConfig.t) :
  BackendConfig.task_cpu_int cfg = Raise (AttributeError "str" "value")
  /\ BackendConfig.task_memory_int cfg = Raise (AttributeError "str" "value")
  /\ exists dflt,
       BackendConfig.new rt ∅ = Ok dflt
       /\ BackendConfig.task_cpu dflt = "500m"%string
       /\ BackendConfig.task_memory dflt = "512Mi"%string
       /\ BackendConfig.task_cpu_int dflt = Raise (AttributeError "str" "value")
       /\ BackendConfig.task_memory_int dflt = Raise (AttributeError "str" "value").
Proof.
  split; [reflexivity | split; [reflexivity |]].
  eexists. split; [reflexivity |]. repeat split.
Qed.

(** ** Availability zones *)

(** C7: [VpcConfig] does not compare [max_azs] with [reserved_azs]: for
    all integers with [max_azs < reserved_azs], and any valid remaining
    fields, construction succeeds and keeps both values. *)
Theorem VpcConfig_accepts_max_below_reserved
    (rt : runtime) (kw : gmap string pyvalue) (a b : Z)
    (c : string) (n : Z) (s : bool) :
  kw !! "max_azs"%string = Some (PyInt a) ->
  kw !! "reserved_azs"%string = Some (PyInt b) ->
  a < b ->
  field kw "cidr" (Some "10.0.0.0/16"%string) validate_str = inr c ->
  field kw "nat_gateways" (Some 1) (validate_int rt) = inr n ->
  field kw "automatic_subnet_creation" (Some true) validate_bool = inr s ->
  VpcConfig.new rt kw = Ok (VpcConfig.Build c a b n s).
Proof.
  intros Ha Hb _ Hc Hn Hs. unfold VpcConfig.new.
  rewrite Hc, Hn, Hs.
  rewrite (field_given kw "max_azs" _ _ _ a Ha eq_refl).
  rewrite (field_given kw "reserved_azs" _ _ _ b Hb eq_refl).
  reflexivity.
Qed.

Lemma VpcConfig_accepts_max_below_reserved_witness :
  VpcConfig.new sample_runtime
    {[ "max_azs"%string := PyInt 1; "reserved_azs"%string := PyInt 3 ]}
  = Ok (VpcConfig.Build "10.0.0.0/16" 1 3 1 true).
Proof.
  apply VpcConfig_accepts_max_below_reserved;
    [reflexivity | reflexivity | lia | reflexivity | reflexivity | reflexivity].
Defined.

(** ** Bounded fields *)

Lemma field_float_ge_inv rt kw name d b x y :
  field kw name (Some d) (float_field_ge rt b (validate_float rt)) = inr x ->
  field kw name (Some d) (validate_float rt) = inr y ->
  x = y /\ (float_ge x b = true \/ x = d).
Proof.
  unfold field, float_field_ge. destruct (kw !! name) as [given |].
  - destruct (validate_float rt given) as [es | f]; simpl; [discriminate |].
    destruct (float_ge f b) eqn:E; simpl; [| discriminate].
    intros H1 H2. injection H1 as <-. injection H2 as <-. auto.
  - intros H1 H2. injection H1 as <-. injection H2 as <-. auto.
Qed.

Lemma field_float_ge_intro rt kw name d b x :
  field kw name (Some d) (validate_float rt) = inr x ->
  float_ge x b = true ->
  field kw name (Some d) (float_field_ge rt b (validate_float rt)) = inr x.
Proof.
  unfold field, float_field_ge. destruct (kw !! name) as [given |]; [| auto].
  destruct (validate_float rt given) as [es | f]; simpl; [discriminate |].
  intros H. injection H as ->. intros ->. reflexivity.
Qed.

Lemma field_int_ge_inv rt kw name d b x y :
  field kw name (Some d) (int_ge b (validate_int rt)) = inr x ->
  field kw name (Some d) (validate_int rt) = inr y ->
  x = y /\ (b <= x \/ x = d).
Proof.
  unfold field, int_ge. destruct (kw !! name) as [given |].
  - destruct (validate_int rt given) as [es | z]; simpl; [discriminate |].
    destruct (Z.geb_spec z b) as [E | E]; simpl; [| discriminate].
    intros H1 H2. injection H1 as <-. injection H2 as <-.
    split; [reflexivity | left; lia].
  - intros H1 H2. injection H1 as <-. injection H2 as <-. auto.
Qed.

Lemma field_int_ge_intro rt kw name d b x :
  field kw name (Some d) (validate_int rt) = inr x ->
  b <= x ->
  field kw name (Some d) (int_ge b (validate_int rt)) = inr x.
Proof.
  unfold field, int_ge. destruct (kw !! name) as [given |]; [| auto].
  destruct (validate_int rt given) as [es | z]; simpl; [discriminate |].
  intros H. injection H as ->. intros Hb.
  destruct (Z.geb_spec x b) as [_ | E]; [reflexivity | lia].
Qed.

(** ** Cross-field messages *)

Lemma contains_head (sub post : string) : contains (sub +:+ post) sub = true.
Proof. exact (contains_app "" sub post). Qed.

Lemma contains_app_r (a s sub : string) :
  contains s sub = true -> contains (a +:+ s) sub = true.
Proof.
  intros H. induction a as [| c a IH]; [exact H |].
  change (contains (String c (a +:+ s)) sub = true).
  cbn [contains]. rewrite IH. apply orb_true_r.
Qed.

Lemma capacity_message_mentions rt lo hi :
  contains ("Value error, " +:+ DatabaseConfig.capacity_message rt lo hi)
           (float_repr rt lo) = true
  /\ contains ("Value error, " +:+ DatabaseConfig.capacity_message rt lo hi)
              (float_repr rt hi) = true.
Proof.
  unfold DatabaseConfig.capacity_message. split.
  - do 2 apply contains_app_r. apply contains_head.
  - do 5 apply contains_app_r. apply contains_head.
Qed.

Lemma auto_scaling_message_mentions lo hi :
  contains ("Value error, " +:+ BackendConfig.auto_scaling_message lo hi)
           (int_str lo) = true
  /\ contains ("Value error, " +:+ BackendConfig.auto_scaling_message lo hi)
              (int_str hi) = true.
Proof.
  unfold BackendConfig.auto_scaling_message. split.
  - do 2 apply contains_app_r. apply contains_head.
  - do 5 apply contains_app_r. apply contains_head.
Qed.

(** ** Database capacities *)

(** C1, as amended: with [lo] and [hi] the minimum and maximum capacity
    the keywords give (or the defaults), construction of [DatabaseConfig]
    fails with a validation error whenever [lo >= hi] or [lo < 0.5]; when
    every other field is valid and [lo >= 0.5], it succeeds if [lo < hi],
    and if [lo >= hi] it fails in the cross-field validator with a single
    message that contains both compared values. *)
Theorem DatabaseConfig_capacity_validation
    (rt : runtime) (kw : gmap string pyvalue) (lo hi : spec_float) :
  field kw "serverless_v2_min_capacity" (Some float_0_5) (validate_float rt) = inr lo ->
  field kw "serverless_v2_max_capacity" (Some float_2_0) (validate_float rt) = inr hi ->
  (float_ge lo hi = true \/ float_lt lo float_0_5 = true ->
   is_validation_error (DatabaseConfig.new rt kw) = true)
  /\ (forall snap keep reader user,
        field kw "snapshot_identifier" (Some None) validate_optional_str = inr snap ->
        field kw "backup_retention" (Some 2) (validate_int rt) = inr keep ->
        field kw "instance_reader" (Some false) validate_bool = inr reader ->
        field kw "master_username" (Some "postgres"%string) validate_str = inr user ->
        float_ge lo float_0_5 = true ->
        (float_lt lo hi = true ->
         DatabaseConfig.new rt kw = Ok (DatabaseConfig.Build snap keep reader lo hi user))
        /\ (float_ge lo hi = true ->
            DatabaseConfig.new rt kw =
              Raise (ValidationError "DatabaseConfig"
                       [ErrorDetails [] (value_error (DatabaseConfig.capacity_message rt lo hi))])
            /\ exists msg,
                 messages (DatabaseConfig.new rt kw) = [msg]
                 /\ contains msg (float_repr rt lo) = true
                 /\ contains msg (float_repr rt hi) = true)).
Proof.
  intros Hlo Hhi. split.
  - intros Hbad. unfold DatabaseConfig.new. apply model_fails.
    intros self Hself. vap_inv Hself.
    match goal with
    | H : field _ _ _ (float_field_ge _ _ _) = inr _ |- _ =>
        destruct (field_float_ge_inv _ _ _ _ _ _ _ H Hlo) as [-> Hmin]
    end.
    same_field.
    unfold DatabaseConfig.validate_capacity. simpl.
    destruct Hbad as [Hge | Hlt].
    + rewrite Hge. eauto.
    + destruct Hmin as [Hmin | ->]; [| discriminate].
      rewrite (float_lt_not_ge _ _ Hlt) in Hmin. discriminate.
  - intros snap keep reader user Hsnap Hkeep Hreader Huser Hfloor.
    assert (Hnew : forall after,
      model "DatabaseConfig"
        (vpure DatabaseConfig.Build
          <@> field kw "snapshot_identifier" (Some None) validate_optional_str
          <@> field kw "backup_retention" (Some 2) (validate_int rt)
          <@> field kw "instance_reader" (Some false) validate_bool
          <@> field kw "serverless_v2_min_capacity" (Some float_0_5)
                (float_field_ge rt float_0_5 (validate_float rt))
          <@> field kw "serverless_v2_max_capacity" (Some float_2_0) (validate_float rt)
          <@> field kw "master_username" (Some "postgres"%string) validate_str)
        after
      = model "DatabaseConfig"
          (inr (DatabaseConfig.Build snap keep reader lo hi user)) after).
    { intros after. rewrite Hsnap, Hkeep, Hreader, Hhi, Huser.
      rewrite (field_float_ge_intro _ _ _ _ _ _ Hlo Hfloor).
      reflexivity. }
    unfold DatabaseConfig.new. rewrite Hnew.
    unfold model, DatabaseConfig.validate_capacity. simpl. split.
    + intros Hlt. rewrite (float_lt_not_ge _ _ Hlt). reflexivity.
    + intros Hge. rewrite Hge. split; [reflexivity |].
      eexists. split; [reflexivity |]. apply capacity_message_mentions.
Qed.

(** C1 as stated fails: capacities 0.5 and 2.0 satisfy [min >= 0.5] and
    [min < max], yet construction is refused because another field
    ([backup_retention: null]) is invalid. *)
Lemma DatabaseConfig_ordered_capacities_still_refused :
  exists (kw : gmap string pyvalue) (lo hi : spec_float),
    kw !! "serverless_v2_min_capacity"%string = Some (PyFloat lo)
    /\ kw !! "serverless_v2_max_capacity"%string = Some (PyFloat hi)
    /\ float_ge lo float_0_5 = true
    /\ float_lt lo hi = true
    /\ forall rt,
         DatabaseConfig.new rt kw =
           Raise (ValidationError "DatabaseConfig"
                    [ErrorDetails ["backup_retention"%string] int_type]).
Proof.
  exists {[ "serverless_v2_min_capacity"%string := PyFloat float_0_5;
            "serverless_v2_max_capacity"%string := PyFloat float_2_0;
            "backup_retention"%string := PyNone ]}, float_0_5, float_2_0.
  repeat split.
Qed.

Lemma DatabaseConfig_capacity_validation_witness :
  is_validation_error
    (DatabaseConfig.new sample_runtime
       {[ "serverless_v2_min_capacity"%string := PyFloat float_2_0;
          "serverless_v2_max_capacity"%string := PyFloat float_0_5;
          "backup_retention"%string := PyNone ]}) = true
  /\ DatabaseConfig.new sample_runtime
       {[ "serverless_v2_min_capacity"%string := PyFloat float_1_0 ]}
     = Ok (DatabaseConfig.Build None 2 false float_1_0 float_2_0 "postgres")
  /\ DatabaseConfig.new sample_runtime
       {[ "serverless_v2_min_capacity"%string := PyInt 2;
          "serverless_v2_max_capacity"%string := PyFloat float_1_0 ]}
     = Raise (ValidationError "DatabaseConfig"
                [ErrorDetails [] (value_error
                   "serverless_v2_min_capacity (4503599627370496*2**-51) must be less than serverless_v2_max_capacity (4503599627370496*2**-52)")]).
Proof.
  split; [| split].
  - apply (DatabaseConfig_capacity_validation sample_runtime _ float_2_0 float_0_5);
      [reflexivity | reflexivity | left; reflexivity].
  - apply (DatabaseConfig_capacity_validation sample_runtime _ float_1_0 float_2_0);
      reflexivity.
  - refine (proj1 (proj2 (proj2
      (DatabaseConfig_capacity_validation sample_runtime
         {[ "serverless_v2_min_capacity"%string := PyInt 2;
            "serverless_v2_max_capacity"%string := PyFloat float_1_0 ]}
         float_2_0 float_1_0 eq_refl eq_refl)
      None 2 false "postgres"%string eq_refl eq_refl eq_refl eq_refl eq_refl) eq_refl)).
Defined.

(** ** Auto-scaling bounds *)

(** C2, as amended: with [lo] and [hi] the minimum and maximum
    auto-scaling capacity the keywords give (or the defaults),
    construction of [BackendConfig] fails with a validation error whenever
    [lo >= hi]; when every other field is valid and [lo >= 1], it succeeds
    if [lo < hi], and if [lo >= hi] it fails in the cross-field validator
    with a single message that contains both compared values. *)
Theorem BackendConfig_auto_scaling_validation
    (rt : runtime) (kw : gmap string pyvalue) (lo hi : Z) :
  field kw "auto_scaling_min_capacity" (Some 1) (validate_int rt) = inr lo ->
  field kw "auto_scaling_max_capacity" (Some 5) (validate_int rt) = inr hi ->
  (lo >= hi -> is_validation_error (BackendConfig.new rt kw) = true)
  /\ (forall cpu mem count arn vars repo tag,
        field kw "task_cpu" (Some "500m"%string) validate_str = inr cpu ->
        field kw "task_memory" (Some "512Mi"%string) validate_str = inr mem ->
        field kw "desired_count" (Some 1) (validate_int rt) = inr count ->
        field kw "certificate_arn" (Some BackendConfig.default_certificate_arn)
          (str_pattern rt Regex.acm_certificate_arn) = inr arn ->
        field kw "container_env_vars" (Some []) validate_dict_str_str = inr vars ->
        field kw "ecr_repository_name" (Some "services/ecs/fastapi_app"%string)
          validate_str = inr repo ->
        field kw "ecr_image_tag" (Some "lastest"%string) validate_str = inr tag ->
        1 <= lo ->
        (lo < hi ->
         BackendConfig.new rt kw =
           Ok (BackendConfig.Build cpu mem count arn vars lo hi repo tag))
        /\ (lo >= hi ->
            BackendConfig.new rt kw =
              Raise (ValidationError "BackendConfig"
                       [ErrorDetails [] (value_error (BackendConfig.auto_scaling_message lo hi))])
            /\ exists msg,
                 messages (BackendConfig.new rt kw) = [msg]
                 /\ contains msg (int_str lo) = true
                 /\ contains msg (int_str hi) = true)).
Proof.
  intros Hlo Hhi. split.
  - intros Hbad. unfold BackendConfig.new. apply model_fails.
    intros self Hself. vap_inv Hself.
    match goal with
    | H : field _ _ _ (int_ge _ _) = inr _ |- _ =>
        destruct (field_int_ge_inv _ _ _ _ _ _ _ H Hlo) as [-> _]
    end.
    same_field.
    unfold BackendConfig.validate_auto_scaling. simpl.
    match goal with
    | |- context [?x >=? ?y] => destruct (Z.geb_spec x y) as [_ | Hlt]; [eauto | lia]
    end.
  - intros cpu mem count arn vars repo tag Hcpu Hmem Hcount Harn Hvars Hrepo Htag Hfloor.
    pose proof (field_int_ge_intro _ _ _ _ _ _ Hlo Hfloor) as Hlo'.
    unfold BackendConfig.new.
    rewrite Hcpu, Hmem, Hcount, Harn, Hvars, Hlo', Hhi, Hrepo, Htag.
    unfold model, BackendConfig.validate_auto_scaling. simpl. split.
    + intros Hlt. destruct (Z.geb_spec lo hi) as [Hge | _]; [lia | reflexivity].
    + intros Hge. destruct (Z.geb_spec lo hi) as [_ | Hlt]; [| lia].
      split; [reflexivity |].
      eexists. split; [reflexivity |]. apply auto_scaling_message_mentions.
Qed.

(** C2 as stated fails in its last part: with minimum 0 and maximum -5
    the minimum is not below the maximum and construction is refused, but
    by the field bound [ge=1]; the cross-field validator does not run and
    the only message does not contain the maximum. *)
Lemma BackendConfig_floor_error_hides_capacities :
  exists (kw : gmap string pyvalue) (lo hi : Z),
    kw !! "auto_scaling_min_capacity"%string = Some (PyInt lo)
    /\ kw !! "auto_scaling_max_capacity"%string = Some (PyInt hi)
    /\ lo >= hi
    /\ forall rt,
         BackendConfig.new rt kw =
           Raise (ValidationError "BackendConfig"
                    [ErrorDetails ["auto_scaling_min_capacity"%string]
                       (greater_than_equal "1")])
         /\ messages (BackendConfig.new rt kw) =
              ["Input should be greater than or equal to 1"%string]
         /\ existsb (fun msg => contains msg (int_str hi))
              (messages (BackendConfig.new rt kw)) = false.
Proof.
  exists {[ "auto_scaling_min_capacity"%string := PyInt 0;
            "auto_scaling_max_capacity"%string := PyInt (-5) ]}, 0, (-5).
  split; [reflexivity |]. split; [reflexivity |]. split; [lia |].
  intros rt. repeat split.
Qed.

Lemma BackendConfig_auto_scaling_validation_witness :
  is_validation_error
    (BackendConfig.new sample_runtime
       {[ "auto_scaling_min_capacity"%string := PyInt 0;
          "auto_scaling_max_capacity"%string := PyInt (-5) ]}) = true
  /\ BackendConfig.new sample_runtime
       {[ "auto_scaling_min_capacity"%string := PyInt 2;
          "auto_scaling_max_capacity"%string := PyInt 4 ]}
     = Ok (BackendConfig.Build "500m" "512Mi" 1 BackendConfig.default_certificate_arn []
             2 4 "services/ecs/fastapi_app" "lastest")
  /\ BackendConfig.new sample_runtime
       {[ "auto_scaling_min_capacity"%string := PyInt 7;
          "auto_scaling_max_capacity"%string := PyInt 3 ]}
     = Raise (ValidationError "BackendConfig"
                [ErrorDetails [] (value_error
                   "auto_scaling_min_capacity (7) must be less than auto_scaling_max_capacity (3)")]).
Proof.
  split; [| split].
  - refine (proj1
      (BackendConfig_auto_scaling_validation sample_runtime
         {[ "auto_scaling_min_capacity"%string := PyInt 0;
            "auto_scaling_max_capacity"%string := PyInt (-5) ]}
         0 (-5) eq_refl eq_refl) _). lia.
  - refine (proj1 (proj2
      (BackendConfig_auto_scaling_validation sample_runtime
         {[ "auto_scaling_min_capacity"%string := PyInt 2;
            "auto_scaling_max_capacity"%string := PyInt 4 ]}
         2 4 eq_refl eq_refl)
      "500m"%string "512Mi"%string 1 BackendConfig.default_certificate_arn []
      "services/ecs/fastapi_app"%string "lastest"%string
      eq_refl eq_refl eq_refl eq_refl eq_refl eq_refl eq_refl _) _); lia.
  - refine (proj1 (proj2 (proj2
      (BackendConfig_auto_scaling_validation sample_runtime
         {[ "auto_scaling_min_capacity"%string := PyInt 7;
            "auto_scaling_max_capacity"%string := PyInt 3 ]}
         7 3 eq_refl eq_refl)
      "500m"%string "512Mi"%string 1 BackendConfig.default_certificate_arn []
      "services/ecs/fastapi_app"%string "lastest"%string
      eq_refl eq_refl eq_refl eq_refl eq_refl eq_refl eq_refl _) _)); lia.
Defined.

(** ** ARN patterns *)

Lemma field_pattern_given rt kw name d pat s :
  kw !! name = Some (PyStr s) ->
  field kw name d (str_pattern rt pat) =
    if Regex.is_match rt pat s then inr s
    else inl [ErrorDetails [name] (string_pattern_mismatch (Regex.source pat))].
Proof.
  intros Hk. unfold field, str_pattern. rewrite Hk. simpl.
  destruct (Regex.is_match rt pat s); reflexivity.
Qed.

(** Refutes [H : field kw name d (str_pattern rt pat) = inr a] when the
    supplied string does not match. *)
Ltac pattern_refused Hk Hno :=
  match goal with
  | H : field _ _ _ (str_pattern _ _) = inr _ |- _ =>
      rewrite (field_pattern_given _ _ _ _ _ _ Hk), Hno in H; discriminate H
  end.

(** C5, as amended: for each of the four ARN-bearing fields, when the
    keywords supply a string for it, construction of the owning
    sub-config fails with a validation error if the string does not match
    the field's pattern, and succeeds, keeping the string, if it matches
    and every other field is valid (for [BackendConfig], the auto-scaling
    minimum being at least 1 and below the maximum). *)
Theorem arn_fields_follow_their_pattern (rt : runtime) :
  (forall kw s,
     kw !! "certificate_arn"%string = Some (PyStr s) ->
     (Regex.is_match rt Regex.acm_certificate_arn s = false ->
      is_validation_error (BackendConfig.new rt kw) = true)
     /\ (Regex.is_match rt Regex.acm_certificate_arn s = true ->
         forall cpu mem count vars lo hi repo tag,
           field kw "task_cpu" (Some "500m"%string) validate_str = inr cpu ->
           field kw "task_memory" (Some "512Mi"%string) validate_str = inr mem ->
           field kw "desired_count" (Some 1) (validate_int rt) = inr count ->
           field kw "container_env_vars" (Some []) validate_dict_str_str = inr vars ->
           field kw "auto_scaling_min_capacity" (Some 1) (validate_int rt) = inr lo ->
           field kw "auto_scaling_max_capacity" (Some 5) (validate_int rt) = inr hi ->
           field kw "ecr_repository_name" (Some "services/ecs/fastapi_app"%string)
             validate_str = inr repo ->
           field kw "ecr_image_tag" (Some "lastest"%string) validate_str = inr tag ->
           1 <= lo < hi ->
           BackendConfig.new rt kw =
             Ok (BackendConfig.Build cpu mem count s vars lo hi repo tag)))
  /\ (forall kw s,
        kw !! "certificate_arn"%string = Some (PyStr s) ->
        (Regex.is_match rt Regex.acm_certificate_arn s = false ->
         is_validation_error (FrontendConfig.new rt kw) = true)
        /\ (Regex.is_match rt Regex.acm_certificate_arn s = true ->
            forall domain provider,
              field kw "domain_name" (Some "dev-frontend.piercuta.com"%string)
                validate_str = inr domain ->
              field kw "certificate_provider" (Some "acm"%string) validate_str
                = inr provider ->
              FrontendConfig.new rt kw = Ok (FrontendConfig.Build domain s provider)))
  /\ (forall kw s,
        kw !! "github_connection_arn"%string = Some (PyStr s) ->
        (Regex.is_match rt Regex.codeconnections_arn s = false ->
         is_validation_error (CICDFronendConfig.new rt kw) = true)
        /\ (Regex.is_match rt Regex.codeconnections_arn s = true ->
            forall owner repo branch,
              field kw "github_owner" (Some "Piercuta"%string) validate_str = inr owner ->
              field kw "github_frontend_repo" (Some "full-stack-fastapi-front"%string)
                validate_str = inr repo ->
              field kw "github_frontend_branch" (Some "dev"%string) validate_str
                = inr branch ->
              CICDFronendConfig.new rt kw =
                Ok (CICDFronendConfig.Build s owner repo branch)))
  /\ (forall kw s,
        kw !! "github_connection_arn"%string = Some (PyStr s) ->
        (Regex.is_match rt Regex.codeconnections_arn s = false ->
         is_validation_error (CICDBackendConfig.new rt kw) = true)
        /\ (Regex.is_match rt Regex.codeconnections_arn s = true ->
            forall owner repo branch,
              field kw "github_owner" (Some "Piercuta"%string) validate_str = inr owner ->
              field kw "github_backend_repo" (Some "full-stack-fastapi-backend"%string)
                validate_str = inr repo ->
              field kw "github_backend_branch" (Some "dev"%string) validate_str
                = inr branch ->
              CICDBackendConfig.new rt kw =
                Ok (CICDBackendConfig.Build s owner repo branch))).
Proof.
  repeat split.
  - intros Hno. unfold BackendConfig.new. apply model_fails.
    intros self Hself. vap_inv Hself. pattern_refused H Hno.
  - intros Hyes cpu mem count vars lo hi repo tag
      Hcpu Hmem Hcount Hvars Hlo Hhi Hrepo Htag [Hfloor Hlt].
    pose proof (field_int_ge_intro _ _ _ _ _ _ Hlo Hfloor) as Hlo'.
    unfold BackendConfig.new.
    rewrite (field_pattern_given _ _ _ _ _ _ H), Hyes.
    rewrite Hcpu, Hmem, Hcount, Hvars, Hlo', Hhi, Hrepo, Htag.
    unfold model, BackendConfig.validate_auto_scaling. simpl.
    destruct (Z.geb_spec lo hi) as [Hge | _]; [lia | reflexivity].
  - intros Hno. unfold FrontendConfig.new. apply model_fails.
    intros self Hself. vap_inv Hself. pattern_refused H Hno.
  - intros Hyes domain provider Hdomain Hprovider. unfold FrontendConfig.new.
    rewrite (field_pattern_given _ _ _ _ _ _ H), Hyes, Hdomain, Hprovider.
    reflexivity.
  - intros Hno. unfold CICDFronendConfig.new. apply model_fails.
    intros self Hself. vap_inv Hself. pattern_refused H Hno.
  - intros Hyes owner repo branch Howner Hrepo Hbranch. unfold CICDFronendConfig.new.
    rewrite (field_pattern_given _ _ _ _ _ _ H), Hyes, Howner, Hrepo, Hbranch.
    reflexivity.
  - intros Hno. unfold CICDBackendConfig.new. apply model_fails.
    intros self Hself. vap_inv Hself. pattern_refused H Hno.
  - intros Hyes owner repo branch Howner Hrepo Hbranch. unfold CICDBackendConfig.new.
    rewrite (field_pattern_given _ _ _ _ _ _ H), Hyes, Howner, Hrepo, Hbranch.
    reflexivity.
Qed.

(** C5 as stated fails in its second half: a certificate ARN that matches
    the pattern does not make construction succeed when another check of
    the same sub-config fails; here the auto-scaling bounds are reversed. *)
Lemma BackendConfig_matching_arn_still_refused :
  exists (kw : gmap string pyvalue) (s : string),
    kw !! "certificate_arn"%string = Some (PyStr s)
    /\ forall rt,
         Regex.is_match rt Regex.acm_certificate_arn s = true
         /\ BackendConfig.new rt kw =
              Raise (ValidationError "BackendConfig"
                       [ErrorDetails [] (value_error
                          "auto_scaling_min_capacity (5) must be less than auto_scaling_max_capacity (2)")]).
Proof.
  exists {[ "certificate_arn"%string :=
              PyStr "arn:aws:acm:eu-west-1:123456789012:certificate/abc-123";
            "auto_scaling_min_capacity"%string := PyInt 5;
            "auto_scaling_max_capacity"%string := PyInt 2 ]},
         "arn:aws:acm:eu-west-1:123456789012:certificate/abc-123"%string.
  split; [reflexivity |]. intros rt. split; reflexivity.
Qed.

Lemma arn_fields_follow_their_pattern_witness :
  is_validation_error
    (BackendConfig.new sample_runtime
       {[ "certificate_arn"%string := PyStr "arn:aws:acm:eu-west-1:12345:certificate/abc" ]})
    = true
  /\ FrontendConfig.new sample_runtime
       {[ "certificate_arn"%string :=
            PyStr "arn:aws:acm:us-east-1:123456789012:certificate/abc-123" ]}
     = Ok (FrontendConfig.Build "dev-frontend.piercuta.com"
             "arn:aws:acm:us-east-1:123456789012:certificate/abc-123" "acm")
  /\ is_validation_error
       (CICDFronendConfig.new sample_runtime
          {[ "github_connection_arn"%string :=
               PyStr "arn:aws:acm:us-east-1:123456789012:certificate/abc-123" ]})
     = true
  /\ CICDBackendConfig.new sample_runtime
       {[ "github_connection_arn"%string :=
            PyStr "arn:aws:codeconnections:eu-west-1:123456789012:connection/9f-1" ]}
     = Ok (CICDBackendConfig.Build
             "arn:aws:codeconnections:eu-west-1:123456789012:connection/9f-1"
             "Piercuta" "full-stack-fastapi-backend" "dev").
Proof.
  destruct (arn_fields_follow_their_pattern sample_runtime) as (HB & HF & HCF & HCB).
  split; [| split; [| split]].
  - exact (proj1
      (HB {[ "certificate_arn"%string := PyStr "arn:aws:acm:eu-west-1:12345:certificate/abc" ]}
          "arn:aws:acm:eu-west-1:12345:certificate/abc"%string eq_refl) eq_refl).
  - exact (proj2
      (HF {[ "certificate_arn"%string :=
               PyStr "arn:aws:acm:us-east-1:123456789012:certificate/abc-123" ]}
          "arn:aws:acm:us-east-1:123456789012:certificate/abc-123"%string eq_refl)
      eq_refl "dev-frontend.piercuta.com"%string "acm"%string eq_refl eq_refl).
  - exact (proj1
      (HCF {[ "github_connection_arn"%string :=
                PyStr "arn:aws:acm:us-east-1:123456789012:certificate/abc-123" ]}
           "arn:aws:acm:us-east-1:123456789012:certificate/abc-123"%string eq_refl) eq_refl).
  - exact (proj2
      (HCB {[ "github_connection_arn"%string :=
                PyStr "arn:aws:codeconnections:eu-west-1:123456789012:connection/9f-1" ]}
           "arn:aws:codeconnections:eu-west-1:123456789012:connection/9f-1"%string eq_refl)
      eq_refl "Piercuta"%string "full-stack-fastapi-backend"%string "dev"%string
      eq_refl eq_refl eq_refl).
Defined.

(** ** The loader and its surroundings *)

Lemma reads_nothing_lift {A} (r : result A) : reads_nothing (lift r).
Proof.
  exists r, []. split; [reflexivity |].
  intros [fs tr]. unfold lift. simpl. rewrite app_nil_r. reflexivity.
Qed.

Lemma reads_nothing_emit cls : reads_nothing (emit (Called cls)).
Proof. exists (Ok tt), [Called cls]. split; reflexivity. Qed.

Lemma reads_nothing_bind {A B} (m : io A) (k : A -> io B) :
  reads_nothing m -> (forall a, reads_nothing (k a)) -> reads_nothing (bind m k).
Proof.
  intros (r & calls & Hc & Hm) Hk. destruct r as [a | e].
  - destruct (Hk a) as (r' & calls' & Hc' & Hka).
    exists r', (calls ++ calls'). split.
    + rewrite forallb_app, Hc, Hc'. reflexivity.
    + intros w. unfold bind. rewrite Hm, Hka. simpl. rewrite app_assoc. reflexivity.
  - exists (Raise e), calls. split; [exact Hc |].
    intros w. unfold bind. rewrite Hm. reflexivity.
Qed.

Lemma reads_nothing_build {A} env_config key cls (new : gmap string pyvalue -> result A) :
  reads_nothing (ConfigLoader.build env_config key cls new).
Proof.
  unfold ConfigLoader.build.
  repeat (apply reads_nothing_bind; [| intros ?]);
    auto using reads_nothing_lift, reads_nothing_emit.
Qed.

Lemma load_environment_config_spec self w :
  ConfigLoader.load_environment_config self w =
    (match files w !! ConfigLoader.config_path self with
     | None => Raise (FileNotFoundError (ConfigLoader.config_path self))
     | Some Malformed => Raise YAMLError
     | Some (Document v) => Ok v
     end,
     World (files w) (trace w ++ [Open (ConfigLoader.config_path self)])).
Proof.
  unfold ConfigLoader.load_environment_config, bind, emit. simpl.
  destruct (files w !! ConfigLoader.config_path self) as [[| v] |]; reflexivity.
Qed.

(** After the file is read, [create_config] no longer looks at the world. *)
Lemma create_config_after_load rt self :
  exists k,
    ConfigLoader.create_config rt self = bind (ConfigLoader.load_environment_config self) k
    /\ forall env_config, reads_nothing (k env_config).
Proof.
  eexists. split; [reflexivity |]. intros env_config.
  repeat (apply reads_nothing_bind; [| intros ?]);
    auto using reads_nothing_lift, reads_nothing_emit, reads_nothing_build.
Qed.

(** What [create_config] returns and leaves behind, from the content of
    the one file it opens. *)
Lemma create_config_reads_one_file rt self :
  exists (outcome : option yaml_content -> result InfrastructureConfig.t)
         (calls : option yaml_content -> list event),
    (forall c, forallb is_call (calls c) = true)
    /\ calls None = []
    /\ outcome None = Raise (FileNotFoundError (ConfigLoader.config_path self))
    /\ forall w,
         ConfigLoader.create_config rt self w =
           (outcome (files w !! ConfigLoader.config_path self),
            World (files w)
              (trace w ++ Open (ConfigLoader.config_path self)
                 :: calls (files w !! ConfigLoader.config_path self))).
Proof.
  destruct (create_config_after_load rt self) as (k & -> & Hk).
  assert (Hdoc : forall v, exists r calls,
             forallb is_call calls = true /\
             forall w, k v w = (r, World (files w) (trace w ++ calls))).
  { intros v. exact (Hk v). }
  exists (fun c =>
            match c with
            | None => Raise (FileNotFoundError (ConfigLoader.config_path self))
            | Some Malformed => Raise YAMLError
            | Some (Document v) => fst (k v (World ∅ []))
            end),
         (fun c =>
            match c with
            | Some (Document v) => trace (snd (k v (World ∅ [])))
            | _ => []
            end).
  split; [| split; [reflexivity | split; [reflexivity |]]].
  - intros [[| v] |]; try reflexivity.
    destruct (Hdoc v) as (r & calls & Hc & Hkv). rewrite Hkv. exact Hc.
  - intros w. unfold bind. rewrite load_environment_config_spec.
    destruct (files w !! ConfigLoader.config_path self) as [[| v] |]; try reflexivity.
    destruct (Hdoc v) as (r & calls & Hc & Hkv). rewrite !Hkv. simpl.
    rewrite <- app_assoc. reflexivity.
Qed.

(** C6: when the world has no file at the path derived from the
    environment name, [create_config] raises [FileNotFoundError] for that
    path, and the only thing it has done is try to open it: no sub-config
    and no aggregate constructor is called. *)
Theorem create_config_without_file
    (rt : runtime) (self : ConfigLoader.t) (w : world) :
  files w !! ConfigLoader.config_path self = None ->
  ConfigLoader.config_path self =
    os_path_join (ConfigLoader.base_path self)
      ["environments"%string; ConfigLoader.env_name self +:+ ".yaml"]
  /\ ConfigLoader.create_config rt self w =
       (Raise (FileNotFoundError (ConfigLoader.config_path self)),
        World (files w) (trace w ++ [Open (ConfigLoader.config_path self)]))
  /\ List.filter is_call (trace (snd (ConfigLoader.create_config rt self w)))
     = List.filter is_call (trace w).
Proof.
  intros Hnone. split; [reflexivity |].
  destruct (create_config_reads_one_file rt self) as (outcome & calls & _ & Hc & Ho & Hcc).
  rewrite Hcc, Hnone, Hc, Ho. split; [reflexivity |].
  simpl. rewrite List.filter_app. simpl. apply app_nil_r.
Qed.

Lemma create_config_without_file_witness :
  ConfigLoader.create_config sample_runtime
    (ConfigLoader.init "/app/cdk/config" "qa" "piercuta") (World ∅ [])
  = (Raise (FileNotFoundError "/app/cdk/config/environments/qa.yaml"),
     World ∅ [Open "/app/cdk/config/environments/qa.yaml"]).
Proof.
  exact (proj1 (proj2
    (create_config_without_file sample_runtime
       (ConfigLoader.init "/app/cdk/config" "qa" "piercuta") (World ∅ []) eq_refl))).
Defined.

(** C4: [create_config] is a function of the content of the environment
    file, the environment name and the project name: in two worlds that
    agree on that file it returns equal results, and run a second time it
    returns what it returned the first time.  It leaves every file as it
    was, and opens one path only, the environment file's. *)
Theorem create_config_is_deterministic
    (rt : runtime) (self : ConfigLoader.t) (w1 w2 : world) :
  files w1 !! ConfigLoader.config_path self = files w2 !! ConfigLoader.config_path self ->
  fst (ConfigLoader.create_config rt self w1) = fst (ConfigLoader.create_config rt self w2)
  /\ fst (ConfigLoader.create_config rt self (snd (ConfigLoader.create_config rt self w1)))
     = fst (ConfigLoader.create_config rt self w1)
  /\ files (snd (ConfigLoader.create_config rt self w1)) = files w1
  /\ List.filter (fun e => negb (is_call e)) (trace (snd (ConfigLoader.create_config rt self w1)))
     = List.filter (fun e => negb (is_call e)) (trace w1)
         ++ [Open (ConfigLoader.config_path self)].
Proof.
  intros Hsame.
  destruct (create_config_reads_one_file rt self) as (outcome & calls & Hcalls & _ & _ & Hcc).
  rewrite !Hcc. simpl. rewrite Hsame. repeat split.
  rewrite List.filter_app. simpl. f_equal. f_equal.
  specialize (Hcalls (files w2 !! ConfigLoader.config_path self)).
  induction (calls (files w2 !! ConfigLoader.config_path self)) as [| e l IH];
    [reflexivity |].
  simpl in Hcalls. apply andb_prop in Hcalls as [He Hl].
  simpl. rewrite He. simpl. exact (IH Hl).
Qed.

Lemma create_config_is_deterministic_witness :
  fst (ConfigLoader.create_config sample_runtime sample_loader
         (World {[ "/app/cdk/config/environments/dev.yaml"%string := Document sample_document ]}
                []))
  = fst (ConfigLoader.create_config sample_runtime sample_loader
           (World {[ "/app/cdk/config/environments/dev.yaml"%string := Document sample_document;
                     "/app/cdk/config/environments/prod.yaml"%string := Malformed ]}
                  [Open "/etc/hosts"])).
Proof.
  exact (proj1
    (create_config_is_deterministic sample_runtime sample_loader
       (World {[ "/app/cdk/config/environments/dev.yaml"%string := Document sample_document ]}
              [])
       (World {[ "/app/cdk/config/environments/dev.yaml"%string := Document sample_document;
                 "/app/cdk/config/environments/prod.yaml"%string := Malformed ]}
              [Open "/etc/hosts"])
       eq_refl)).
Defined.

(** ** Field-level default substitution *)

Lemma bind_ok_inv {A B} (m : io A) (k : A -> io B) w b w' :
  bind m k w = (Ok b, w') -> exists a w1, m w = (Ok a, w1) /\ k a w1 = (Ok b, w').
Proof.
  unfold bind. destruct (m w) as [[a | e] w1]; [eauto | discriminate].
Qed.

Lemma lift_ok_inv {A} (r : result A) w a w' : lift r w = (Ok a, w') -> r = Ok a.
Proof. unfold lift. congruence. Qed.

Lemma build_ok_inv {A} env_config key cls (new : gmap string pyvalue -> result A) w a w' :
  ConfigLoader.build env_config key cls new w = (Ok a, w') ->
  exists s kw, subscript env_config key = Ok s /\ unpack s = Ok kw /\ new kw = Ok a.
Proof.
  unfold ConfigLoader.build. intros H.
  apply bind_ok_inv in H as (s & w1 & Hs & H). apply lift_ok_inv in Hs.
  apply bind_ok_inv in H as (kw & w2 & Hkw & H). apply lift_ok_inv in Hkw.
  apply bind_ok_inv in H as (u & w3 & _ & H). apply lift_ok_inv in H.
  eauto.
Qed.

Lemma field_from_file_under {T} kw name (d : T) (v v' : validator T) x :
  (forall given y, v given = inr y -> v' given = inr y) ->
  field kw name (Some d) v = inr x -> from_file kw name d v' x.
Proof.
  intros Hv H. apply field_from_file in H. unfold from_file in *.
  destruct (kw !! name); auto.
Qed.

Lemma str_pattern_inr rt pat given s :
  str_pattern rt pat given = inr s -> validate_str given = inr s.
Proof.
  unfold str_pattern. destruct (validate_str given) as [es | s']; [discriminate |].
  destruct (Regex.is_match rt pat s'); [auto | discriminate].
Qed.

Lemma int_ge_inr rt b given z :
  int_ge b (validate_int rt) given = inr z -> validate_int rt given = inr z.
Proof.
  unfold int_ge. destruct (validate_int rt given) as [es | z']; [discriminate |].
  destruct (z' >=? b); [auto | discriminate].
Qed.

Lemma float_field_ge_inr rt b given f :
  float_field_ge rt b (validate_float rt) given = inr f -> validate_float rt given = inr f.
Proof.
  unfold float_field_ge. destruct (validate_float rt given) as [es | f']; [discriminate |].
  destruct (float_ge f' b); [auto | discriminate].
Qed.

(** Turns the equations of [vap_inv] into the conjuncts of a
    [..._from_file] statement. *)
Ltac fields_from_file :=
  repeat split;
  first
    [ apply field_from_file; assumption
    | apply field_required; assumption
    | eapply field_from_file_under; [| eassumption];
      first [ apply str_pattern_inr | apply int_ge_inr | apply float_field_ge_inr ] ].

Lemma AwsConfig_from_file kw c :
  AwsConfig.new kw = Ok c -> aws_from_file kw c.
Proof.
  intros H. apply model_ok_inv in H as (self & H & Hv). injection Hv as <-.
  vap_inv H. unfold aws_from_file; simpl. fields_from_file.
Qed.

Lemma VpcConfig_from_file rt kw c :
  VpcConfig.new rt kw = Ok c -> vpc_from_file rt kw c.
Proof.
  intros H. apply model_ok_inv in H as (self & H & Hv). injection Hv as <-.
  vap_inv H. unfold vpc_from_file; simpl. fields_from_file.
Qed.

Lemma DatabaseConfig_from_file rt kw c :
  DatabaseConfig.new rt kw = Ok c -> database_from_file rt kw c.
Proof.
  intros H. apply model_ok_inv in H as (self & H & Hv).
  unfold DatabaseConfig.validate_capacity in Hv.
  destruct (float_ge _ _); [discriminate |]. injection Hv as <-.
  vap_inv H. unfold database_from_file; simpl. fields_from_file.
Qed.

Lemma BackendConfig_from_file rt kw c :
  BackendConfig.new rt kw = Ok c -> backend_from_file rt kw c.
Proof.
  intros H. apply model_ok_inv in H as (self & H & Hv).
  unfold BackendConfig.validate_auto_scaling in Hv.
  destruct (_ >=? _); [discriminate |]. injection Hv as <-.
  vap_inv H. unfold backend_from_file; simpl. fields_from_file.
Qed.

Lemma FrontendConfig_from_file rt kw c :
  FrontendConfig.new rt kw = Ok c -> frontend_from_file kw c.
Proof.
  intros H. apply model_ok_inv in H as (self & H & Hv). injection Hv as <-.
  vap_inv H. unfold frontend_from_file; simpl. fields_from_file.
Qed.

Lemma CICDFronendConfig_from_file rt kw c :
  CICDFronendConfig.new rt kw = Ok c -> cicd_fronend_from_file kw c.
Proof.
  intros H. apply model_ok_inv in H as (self & H & Hv). injection Hv as <-.
  vap_inv H. unfold cicd_fronend_from_file; simpl. fields_from_file.
Qed.

Lemma CICDBackendConfig_from_file rt kw c :
  CICDBackendConfig.new rt kw = Ok c -> cicd_backend_from_file kw c.
Proof.
  intros H. apply model_ok_inv in H as (self & H & Hv). injection Hv as <-.
  vap_inv H. unfold cicd_backend_from_file; simpl. fields_from_file.
Qed.

Lemma DnsConfig_from_file kw c :
  DnsConfig.new kw = Ok c -> dns_from_file kw c.
Proof.
  intros H. apply model_ok_inv in H as (self & H & Hv). injection Hv as <-.
  vap_inv H. unfold dns_from_file; simpl. fields_from_file.
Qed.

Lemma typed_values_are_kept rt : typed_values_kept rt.
Proof.
  unfold typed_values_kept. repeat split; try reflexivity.
  - intros r. destruct r; reflexivity.
  - intros l. simpl. induction l as [| [k v] l IH]; [reflexivity |].
    simpl. simpl in IH. rewrite IH. reflexivity.
Qed.

Lemma enum_member_value {E} (members : list E) (value : E -> string) s e :
  enum_member members value (PyStr s) = inr e -> value e = s.
Proof.
  unfold enum_member, of_option.
  destruct (find (fun m => String.eqb (value m) s) members) as [m |] eqn:F;
    [| discriminate].
  intros H. injection H as <-.
  apply List.find_some in F as [_ F]. apply String.eqb_eq in F. exact F.
Qed.

Lemma InfrastructureConfig_new_inv env project aws vpc database backend frontend
    cicd_fronend cicd_backend dns cfg :
  InfrastructureConfig.new env project aws vpc database backend frontend
    cicd_fronend cicd_backend dns = Ok cfg ->
  exists e,
    EnvironmentName_value e = env
    /\ cfg = InfrastructureConfig.Build (BaseConfig.Build e project) aws vpc database
               backend frontend cicd_fronend cicd_backend dns.
Proof.
  intros H. apply model_ok_inv in H as (self & H & Hv). injection Hv as <-.
  vap_inv H.
  repeat match goal with
         | H : vpure _ = inr _ |- _ => injection H as <-
         | H : located _ _ = inr _ |- _ => apply located_inr in H
         end.
  match goal with
  | H : validate_str _ = inr _ |- _ => injection H as <-
  end.
  eexists. split; [| reflexivity].
  eapply enum_member_value. eassumption.
Qed.

(** C3, as amended: when [create_config] returns an aggregate, the
    environment file holds a document with the eight sections, and each
    field of each sub-config is the section's value for it, as the
    field's type reads it, when the section gives one, and the schema
    default otherwise; a value that already has the field's type is kept
    unchanged.  The substitution is per field: a section itself has no
    default, and a given value replaces the default whole. *)
Theorem create_config_fields_from_file
    (rt : runtime) (self : ConfigLoader.t) (w w' : world) (cfg : InfrastructureConfig.t) :
  ConfigLoader.create_config rt self w = (Ok cfg, w') ->
  exists doc,
    files w !! ConfigLoader.config_path self = Some (Document doc)
    /\ EnvironmentName_value (BaseConfig.env_name cfg) = ConfigLoader.env_name self
    /\ BaseConfig.project_name cfg = ConfigLoader.project_name self
    /\ section doc "aws" (fun kw => aws_from_file kw (InfrastructureConfig.aws cfg))
    /\ section doc "vpc" (fun kw => vpc_from_file rt kw (InfrastructureConfig.vpc cfg))
    /\ section doc "database"
         (fun kw => database_from_file rt kw (InfrastructureConfig.database cfg))
    /\ section doc "backend"
         (fun kw => backend_from_file rt kw (InfrastructureConfig.backend cfg))
    /\ section doc "frontend"
         (fun kw => frontend_from_file kw (InfrastructureConfig.frontend cfg))
    /\ section doc "cicd_fronend"
         (fun kw => cicd_fronend_from_file kw (InfrastructureConfig.cicd_fronend cfg))
    /\ section doc "cicd_backend"
         (fun kw => cicd_backend_from_file kw (InfrastructureConfig.cicd_backend cfg))
    /\ section doc "dns" (fun kw => dns_from_file kw (InfrastructureConfig.dns cfg))
    /\ typed_values_kept rt.
Proof.
  intros H. unfold ConfigLoader.create_config in H.
  apply bind_ok_inv in H as (doc & w0 & Hload & H).
  rewrite load_environment_config_spec in Hload.
  destruct (files w !! ConfigLoader.config_path self) as [[| doc'] |] eqn:Hfile;
    try discriminate.
  injection Hload as -> _.
  apply bind_ok_inv in H as (aws & w1 & Haws & H).
  apply bind_ok_inv in H as (vpc & w2 & Hvpc & H).
  apply bind_ok_inv in H as (database & w3 & Hdatabase & H).
  apply bind_ok_inv in H as (backend & w4 & Hbackend & H).
  apply bind_ok_inv in H as (frontend & w5 & Hfrontend & H).
  apply bind_ok_inv in H as (cicd_fronend & w6 & Hcicd_fronend & H).
  apply bind_ok_inv in H as (cicd_backend & w7 & Hcicd_backend & H).
  apply bind_ok_inv in H as (dns & w8 & Hdns & H).
  apply bind_ok_inv in H as (u & w9 & _ & H).
  apply lift_ok_inv in H.
  apply InfrastructureConfig_new_inv in H as (e & He & ->).
  apply build_ok_inv in Haws as (s1 & kw1 & ? & ? & ?%AwsConfig_from_file).
  apply build_ok_inv in Hvpc as (s2 & kw2 & ? & ? & ?%VpcConfig_from_file).
  apply build_ok_inv in Hdatabase as (s3 & kw3 & ? & ? & ?%DatabaseConfig_from_file).
  apply build_ok_inv in Hbackend as (s4 & kw4 & ? & ? & ?%BackendConfig_from_file).
  apply build_ok_inv in Hfrontend as (s5 & kw5 & ? & ? & ?%FrontendConfig_from_file).
  apply build_ok_inv in Hcicd_fronend
    as (s6 & kw6 & ? & ? & ?%CICDFronendConfig_from_file).
  apply build_ok_inv in Hcicd_backend
    as (s7 & kw7 & ? & ? & ?%CICDBackendConfig_from_file).
  apply build_ok_inv in Hdns as (s8 & kw8 & ? & ? & ?%DnsConfig_from_file).
  exists doc. simpl. unfold section.
  do 11 (split; [solve [reflexivity | assumption | eauto] |]).
  apply typed_values_are_kept.
Qed.

(** C3 as stated fails: a file whose database section says
    [instance_reader: "yes"] is accepted, and the field of the aggregate
    is the boolean [True], which is not equal to the string the file
    gives. *)
Lemma create_config_converts_file_values :
  exists (db : list (pyvalue * pyvalue)) (given : pyvalue),
    subscript quoted_flag_document "database" = Ok (PyDict db)
    /\ subscript (PyDict db) "instance_reader" = Ok given
    /\ forall rt,
       exists cfg w',
         ConfigLoader.create_config rt sample_loader
           (World {[ ConfigLoader.config_path sample_loader := Document quoted_flag_document ]}
                  []) = (Ok cfg, w')
         /\ py_eq (PyBool (DatabaseConfig.instance_reader (InfrastructureConfig.database cfg)))
                  given = false.
Proof.
  exists [(PyStr "instance_reader", PyStr "yes")], (PyStr "yes").
  split; [reflexivity |]. split; [reflexivity |].
  intros rt. eexists. eexists. split; reflexivity.
Qed.

Lemma create_config_fields_from_file_witness :
  exists doc,
    doc = sample_document
    /\ section doc "vpc"
         (fun kw =>
            vpc_from_file sample_runtime kw
              (VpcConfig.Build "10.0.0.0/16" 2 3 1 true)).
Proof.
  assert (Hrun :
    ConfigLoader.create_config sample_runtime sample_loader
      (World {[ ConfigLoader.config_path sample_loader := Document sample_document ]} [])
    = (Ok (InfrastructureConfig.Build (BaseConfig.Build DEV "acme")
             (AwsConfig.Build "123456789012" EU_WEST_1)
             (VpcConfig.Build "10.0.0.0/16" 2 3 1 true)
             (DatabaseConfig.Build None 2 false float_0_5 float_2_0 "postgres")
             (BackendConfig.Build "500m" "512Mi" 1 BackendConfig.default_certificate_arn
                [] 1 5 "services/ecs/fastapi_app" "lastest")
             (FrontendConfig.Build "dev-frontend.piercuta.com"
                FrontendConfig.default_certificate_arn "acm")
             (CICDFronendConfig.Build default_github_connection_arn "Piercuta"
                "full-stack-fastapi-front" "dev")
             (CICDBackendConfig.Build default_github_connection_arn "Piercuta"
                "full-stack-fastapi-backend" "dev")
             (DnsConfig.Build "Z0068506UV3AK4JBKP59" "piercuta.com"
                "dev-frontend.piercuta.com" "dev-backend.piercuta.com")),
       snd (ConfigLoader.create_config sample_runtime sample_loader
              (World {[ ConfigLoader.config_path sample_loader := Document sample_document ]}
                     [])))).
  { vm_compute. reflexivity. }
  destruct (create_config_fields_from_file _ _ _ _ _ Hrun)
    as (doc & Hdoc & _ & _ & _ & Hvpc & _).
  exists doc. split; [| exact Hvpc].
  vm_compute in Hdoc. injection Hdoc as <-. reflexivity.
Defined.

(** * Further properties of the code *)

(** ** Strings *)

Lemma append_cons (c : ascii) (s t : string) : String c s +:+ t = String c (s +:+ t).
Proof. reflexivity. Qed.

Lemma append_nil_l (s : string) : "" +:+ s = s.
Proof. reflexivity. Qed.

Lemma append_nil_r (s : string) : s +:+ "" = s.
Proof.
  induction s as [| c s IH]; [reflexivity |]. rewrite append_cons, IH. reflexivity.
Qed.

Lemma append_assoc (a b c : string) : (a +:+ b) +:+ c = a +:+ b +:+ c.
Proof.
  induction a as [| x a IH]; [reflexivity |]. rewrite !append_cons, IH. reflexivity.
Qed.

Lemma length_append (a b : string) :
  String.length (a +:+ b) = (String.length a + String.length b)%nat.
Proof.
  induction a as [| x a IH]; [reflexivity |]. rewrite append_cons. simpl.
  rewrite IH. reflexivity.
Qed.

Lemma append_cancel_l (a x y : string) : a +:+ x = a +:+ y -> x = y.
Proof.
  induction a as [| c a IH]; [auto |].
  rewrite !append_cons. intros H. injection H as H. auto.
Qed.

Lemma append_cancel_r (a x y : string) : x +:+ a = y +:+ a -> x = y.
Proof.
  revert y. induction x as [| c x IH]; intros [| d y] H;
    rewrite ?append_cons, ?append_nil_l in H.
  - reflexivity.
  - apply (f_equal String.length) in H. simpl in H. rewrite length_append in H. lia.
  - apply (f_equal String.length) in H. simpl in H. rewrite length_append in H. lia.
  - injection H as -> H. f_equal. auto.
Qed.

(** ** The path of the environment file *)

Lemma starts_with_sep_append (e s : string) :
  starts_with_sep e = false -> starts_with_sep s = false ->
  starts_with_sep (e +:+ s) = false.
Proof. destruct e as [| c e]; [auto |]. rewrite append_cons. auto. Qed.

Lemma starts_with_sep_append_true (e s : string) :
  starts_with_sep e = true -> starts_with_sep (e +:+ s) = true.
Proof. destruct e as [| c e]; [discriminate |]. rewrite append_cons. auto. Qed.

Lemma ends_with_sep_append (p q : string) :
  q <> ""%string -> ends_with_sep (p +:+ q) = ends_with_sep q.
Proof.
  intros Hq. induction p as [| c p IH]; [reflexivity |].
  change (ends_with_sep (String c (p +:+ q)) = ends_with_sep q).
  destruct (p +:+ q) as [| d r] eqn:E.
  - destruct p; [contradiction | discriminate].
  - rewrite <- IH. reflexivity.
Qed.

Lemma not_empty_append (p q : string) : q <> ""%string -> String.eqb (p +:+ q) "" = false.
Proof.
  intros Hq. destruct (String.eqb_spec (p +:+ q) "") as [E | _]; [| reflexivity].
  destruct p; [contradiction | discriminate].
Qed.

(** For a name that does not start with a slash, the path is the
    directory reached after [environments], a slash, and the file name. *)
Lemma config_path_relative (self : ConfigLoader.t) :
  starts_with_sep (ConfigLoader.env_name self) = false ->
  ConfigLoader.config_path self =
    join_step (ConfigLoader.base_path self) "environments"
    +:+ "/" +:+ ConfigLoader.env_name self +:+ ".yaml".
Proof.
  intros Hrel. unfold ConfigLoader.config_path, os_path_join. simpl.
  set (dir := join_step (ConfigLoader.base_path self) "environments").
  assert (Hdir : String.eqb dir "" = false /\ ends_with_sep dir = false).
  { unfold dir, join_step. simpl.
    destruct (String.eqb (ConfigLoader.base_path self) "" ||
              ends_with_sep (ConfigLoader.base_path self)).
    - split; [apply not_empty_append | rewrite ends_with_sep_append]; easy.
    - split; [apply not_empty_append | rewrite ends_with_sep_append]; easy. }
  destruct Hdir as [Hne Hend].
  unfold join_step at 1.
  rewrite (starts_with_sep_append _ ".yaml" Hrel eq_refl), Hne, Hend. reflexivity.
Qed.

(** X1: for an environment name that does not start with a slash and a
    base path that is not empty and does not end with one, the file read
    is [<base_path>/environments/<env_name>.yaml]. *)
Theorem config_path_under_base (self : ConfigLoader.t) :
  starts_with_sep (ConfigLoader.env_name self) = false ->
  ConfigLoader.base_path self <> ""%string ->
  ends_with_sep (ConfigLoader.base_path self) = false ->
  ConfigLoader.config_path self =
    ConfigLoader.base_path self +:+ "/environments/" +:+ ConfigLoader.env_name self
    +:+ ".yaml".
Proof.
  intros Hrel Hne Hend. rewrite (config_path_relative self Hrel).
  unfold join_step. simpl. rewrite Hend.
  destruct (String.eqb_spec (ConfigLoader.base_path self) "") as [E | _];
    [contradiction |].
  simpl. rewrite !append_assoc. reflexivity.
Qed.

Lemma config_path_under_base_witness :
  ConfigLoader.config_path (ConfigLoader.init "/app/cdk/config" "staging" "acme")
  = "/app/cdk/config/environments/staging.yaml"%string.
Proof.
  apply (config_path_under_base (ConfigLoader.init "/app/cdk/config" "staging" "acme"));
    [reflexivity | discriminate | reflexivity].
Defined.





(** ** Running the loader step by step *)

Lemma bind_run {A B} (m : io A) (k : A -> io B) w :
  bind m k w =
    match m w with
    | (Ok a, w') => k a w'
    | (Raise e, w') => (Raise e, w')
    end.
Proof. reflexivity. Qed.

Lemma build_run {A} env_config key cls (new : gmap string pyvalue -> result A) w :
  ConfigLoader.build env_config key cls new w =
    match subscript env_config key with
    | Raise e => (Raise e, w)
    | Ok sec =>
        match unpack sec with
        | Raise e => (Raise e, w)
        | Ok kw => (new kw, World (files w) (trace w ++ [Called cls]))
        end
    end.
Proof.
  unfold ConfigLoader.build, bind, lift, emit.
  destruct (subscript env_config key) as [sec | e]; [| reflexivity].
  destruct (unpack sec) as [kw | e]; reflexivity.
Qed.

Lemma subscript_raise_inv doc key e :
  subscript doc key = Raise e ->
  (e = TypeError /\ forall d, doc <> PyDict d)
  \/ (e = KeyError key /\ exists d, doc = PyDict d /\ find (str_key key) d = None).
Proof.
  destruct doc; simpl; intros H; try (injection H as <-; left; split; [reflexivity | discriminate]).
  destruct (find (str_key key) d) eqn:F; [discriminate |].
  injection H as <-. right. eauto.
Qed.

Lemma unpack_raise_inv sec e : unpack sec = Raise e -> e = TypeError.
Proof.
  destruct sec; simpl; intros H; try (injection H as <-; reflexivity).
  destruct (keywords d); [discriminate | injection H as <-; reflexivity].
Qed.

Lemma model_raise_inv {A} title (fields : validation A) after e :
  model title fields after = Raise e -> exists errs, e = ValidationError title errs.
Proof.
  unfold model. destruct fields as [es | self].
  - intros H. injection H as <-. eauto.
  - destruct (after self); [| discriminate]. intros H. injection H as <-. eauto.
Qed.

Lemma validate_EnvironmentName_known env :
  In env ["dev"; "staging"; "prod"]%string ->
  exists e, validate_EnvironmentName (PyStr env) = inr e /\ EnvironmentName_value e = env.
Proof.
  intros [<- | [<- | [<- | []]]]; [exists DEV | exists STAGING | exists PROD];
    split; reflexivity.
Qed.

Lemma validate_EnvironmentName_unknown env :
  ~ In env ["dev"; "staging"; "prod"]%string ->
  validate_EnvironmentName (PyStr env) =
    fail (enum_error "'dev', 'staging' or 'prod'").
Proof.
  intros Hout. unfold validate_EnvironmentName, enum_member.
  cbn [find map EnvironmentName_value].
  destruct (String.eqb_spec "dev" env) as [E | _]; [exfalso; apply Hout; simpl; auto |].
  destruct (String.eqb_spec "staging" env) as [E | _]; [exfalso; apply Hout; simpl; auto |].
  destruct (String.eqb_spec "prod" env) as [E | _]; [exfalso; apply Hout; simpl; auto |].
  reflexivity.
Qed.

Lemma InfrastructureConfig_new_known env project aws vpc database backend frontend
    cicd_fronend cicd_backend dns :
  In env ["dev"; "staging"; "prod"]%string ->
  exists e,
    EnvironmentName_value e = env
    /\ InfrastructureConfig.new env project aws vpc database backend frontend
         cicd_fronend cicd_backend dns
       = Ok (InfrastructureConfig.Build (BaseConfig.Build e project) aws vpc database
               backend frontend cicd_fronend cicd_backend dns).
Proof.
  intros Hin. destruct (validate_EnvironmentName_known env Hin) as (e & Hv & He).
  exists e. split; [exact He |].
  unfold InfrastructureConfig.new. rewrite Hv. reflexivity.
Qed.

Lemma InfrastructureConfig_new_unknown env project aws vpc database backend frontend
    cicd_fronend cicd_backend dns :
  ~ In env ["dev"; "staging"; "prod"]%string ->
  InfrastructureConfig.new env project aws vpc database backend frontend
    cicd_fronend cicd_backend dns = Raise env_name_error.
Proof.
  intros Hout. unfold InfrastructureConfig.new.
  rewrite (validate_EnvironmentName_unknown env Hout). reflexivity.
Qed.

(** Reads [H : builds doc (Step ...)] and runs that step of the goal. *)
Ltac run_built H :=
  let sec := fresh "sec" in
  let kw := fresh "kw" in
  let c := fresh "c" in
  let Hs := fresh "Hs" in
  let Hu := fresh "Hu" in
  let Hn := fresh "Hn" in
  destruct H as (sec & kw & Hs & Hu & c & Hn);
  cbn [step_key step_new step_cls step_type] in Hs, Hu, Hn, c;
  rewrite bind_run, build_run, Hs, Hu, Hn.

(** All eight steps build: the aggregate is constructed from their
    results, after nine calls. *)
Lemma create_config_all_built rt self w doc :
  files w !! ConfigLoader.config_path self = Some (Document doc) ->
  Forall (builds doc) (steps rt) ->
  exists aws vpc database backend frontend cicd_fronend cicd_backend dns,
    ConfigLoader.create_config rt self w =
      (InfrastructureConfig.new (ConfigLoader.env_name self) (ConfigLoader.project_name self)
         aws vpc database backend frontend cicd_fronend cicd_backend dns,
       World (files w)
         (trace w ++ Open (ConfigLoader.config_path self) :: map Called model_names))
    /\ section doc "aws" (fun kw => AwsConfig.new kw = Ok aws)
    /\ section doc "vpc" (fun kw => VpcConfig.new rt kw = Ok vpc)
    /\ section doc "database" (fun kw => DatabaseConfig.new rt kw = Ok database)
    /\ section doc "backend" (fun kw => BackendConfig.new rt kw = Ok backend)
    /\ section doc "frontend" (fun kw => FrontendConfig.new rt kw = Ok frontend)
    /\ section doc "cicd_fronend" (fun kw => CICDFronendConfig.new rt kw = Ok cicd_fronend)
    /\ section doc "cicd_backend" (fun kw => CICDBackendConfig.new rt kw = Ok cicd_backend)
    /\ section doc "dns" (fun kw => DnsConfig.new kw = Ok dns).
Proof.
  intros Hfile Hall. unfold steps in Hall.
  repeat match goal with
         | H : Forall _ (_ :: _) |- _ =>
             let Hb := fresh "Hb" in
             apply Forall_cons_iff in H as [Hb H]
         end.
  unfold ConfigLoader.create_config.
  rewrite bind_run, load_environment_config_spec, Hfile.
  run_built Hb. run_built Hb0. run_built Hb1. run_built Hb2.
  run_built Hb3. run_built Hb4. run_built Hb5. run_built Hb6.
  exists c, c0, c1, c2, c3, c4, c5, c6. unfold section. split.
  - unfold bind, emit, lift. cbn [files trace].
    f_equal. f_equal. rewrite <- !app_assoc. reflexivity.
  - repeat split; eauto.
Qed.

(** Runs the failing step of the goal, given how it fails. *)
Ltac finish_failing :=
  cbn [map step_cls app files trace]; f_equal; f_equal;
  rewrite <- ?app_assoc; reflexivity.

Ltac fail_subscript Hs :=
  rewrite bind_run, build_run; cbn [step_key] in Hs; rewrite Hs; finish_failing.

Ltac fail_unpack Hs Hu :=
  rewrite bind_run, build_run; cbn [step_key] in Hs; rewrite Hs, Hu; finish_failing.

Ltac fail_call Hs Hu Hn :=
  rewrite bind_run, build_run; cbn [step_key step_new] in Hs, Hn;
  rewrite Hs, Hu, Hn; finish_failing.

(** The steps before [s] build and [s] fails: [create_config] raises what
    [s] raises, having called the classes of the steps before it and, if
    the failure is in the call, the class of [s]. *)
Lemma create_config_first_failure rt self w doc before s after e :
  files w !! ConfigLoader.config_path self = Some (Document doc) ->
  steps rt = before ++ s :: after ->
  Forall (builds doc) before ->
  (fails_before_call doc s e ->
   ConfigLoader.create_config rt self w =
     (Raise e,
      World (files w)
        (trace w ++ Open (ConfigLoader.config_path self)
           :: map Called (map step_cls before))))
  /\ (fails_in_call doc s e ->
      ConfigLoader.create_config rt self w =
        (Raise e,
         World (files w)
           (trace w ++ Open (ConfigLoader.config_path self)
              :: map Called (map step_cls (before ++ [s]))))).
Proof.
  intros Hfile Hsplit Hbuilt.
  assert (Hrun : forall k,
    ConfigLoader.create_config rt self w =
      bind (ConfigLoader.load_environment_config self) k w ->
    ConfigLoader.create_config rt self w =
      k doc (World (files w) (trace w ++ [Open (ConfigLoader.config_path self)]))).
  { intros k ->. rewrite bind_run, load_environment_config_spec, Hfile. reflexivity. }
  rewrite (Hrun _ eq_refl). clear Hrun.
  unfold steps in Hsplit.
  repeat
    (destruct before as [| ? before];
     [ injection Hsplit as <- _;
       split;
       [ intros [Hfs | (sec' & Hfs & Hfu)]; [fail_subscript Hfs | fail_unpack Hfs Hfu]
       | intros (sec' & kw' & Hfs & Hfu & Hfn); fail_call Hfs Hfu Hfn ]
     | injection Hsplit as <- Hsplit;
       let Hb := fresh "Hb" in
       apply Forall_cons_iff in Hbuilt as [Hb Hbuilt];
       run_built Hb ]).
  destruct before; discriminate Hsplit.
Qed.

Lemma step_builds_or_fails doc s :
  builds doc s \/ exists e, fails_before_call doc s e \/ fails_in_call doc s e.
Proof.
  unfold builds, fails_before_call, fails_in_call, section.
  destruct (subscript doc (step_key s)) as [sec | e] eqn:Hs; [| eauto 6].
  destruct (unpack sec) as [kw | e] eqn:Hu; [| eauto 8].
  destruct (step_new s kw) as [c | e] eqn:Hn; [left | right]; eauto 10.
Qed.

Lemma first_failing_step doc (l : list step) :
  Forall (builds doc) l
  \/ exists before s after e,
       l = before ++ s :: after
       /\ Forall (builds doc) before
       /\ (fails_before_call doc s e \/ fails_in_call doc s e).
Proof.
  induction l as [| s l IH]; [left; constructor |].
  destruct (step_builds_or_fails doc s) as [Hb | (e & Hf)].
  - destruct IH as [Hall | (before & s' & after & e & -> & Hbefore & Hf)].
    + left. constructor; assumption.
    + right. exists (s :: before), s', after, e.
      split; [reflexivity | split; [constructor; assumption | exact Hf]].
  - right. exists [], s, l, e. split; [reflexivity | split; [constructor | exact Hf]].
Qed.

Lemma create_config_raise_inv rt self w e w' :
  ConfigLoader.create_config rt self w = (Raise e, w') ->
  (files w !! ConfigLoader.config_path self = None
   /\ e = FileNotFoundError (ConfigLoader.config_path self))
  \/ (files w !! ConfigLoader.config_path self = Some Malformed /\ e = YAMLError)
  \/ exists doc,
       files w !! ConfigLoader.config_path self = Some (Document doc)
       /\ ((exists before s after,
              steps rt = before ++ s :: after
              /\ Forall (builds doc) before
              /\ (fails_before_call doc s e \/ fails_in_call doc s e))
           \/ (Forall (builds doc) (steps rt)
               /\ e = env_name_error
               /\ ~ In (ConfigLoader.env_name self) ["dev"; "staging"; "prod"]%string)).
Proof.
  intros H.
  destruct (files w !! ConfigLoader.config_path self) as [[| doc] |] eqn:Hfile.
  - right; left. split; [reflexivity |].
    unfold ConfigLoader.create_config in H.
    rewrite bind_run, load_environment_config_spec, Hfile in H. congruence.
  - right; right. exists doc. split; [reflexivity |].
    destruct (first_failing_step doc (steps rt))
      as [Hall | (before & s & after & e' & Hsplit & Hbefore & Hf)].
    + right. split; [exact Hall |].
      destruct (create_config_all_built rt self w doc Hfile Hall)
        as (aws & vpc & database & backend & frontend & cf & cb & dns & Hrun & _).
      rewrite Hrun in H. injection H as H _.
      destruct (in_dec String.string_dec (ConfigLoader.env_name self)
                  ["dev"; "staging"; "prod"]%string) as [Hin | Hout].
      * destruct (InfrastructureConfig_new_known _ (ConfigLoader.project_name self)
                    aws vpc database backend frontend cf cb dns Hin) as (x & _ & Hok).
        rewrite Hok in H. discriminate.
      * rewrite (InfrastructureConfig_new_unknown _ _ _ _ _ _ _ _ _ _ Hout) in H.
        split; [congruence | exact Hout].
    + left. exists before, s, after. split; [exact Hsplit | split; [exact Hbefore |]].
      destruct (create_config_first_failure rt self w doc before s after e'
                  Hfile Hsplit Hbefore) as [Hbc Hic].
      destruct Hf as [Hf | Hf].
      * rewrite (Hbc Hf) in H. injection H as <- _. left. exact Hf.
      * rewrite (Hic Hf) in H. injection H as <- _. right. exact Hf.
  - left. split; [reflexivity |].
    unfold ConfigLoader.create_config in H.
    rewrite bind_run, load_environment_config_spec, Hfile in H. congruence.
Qed.

Lemma step_call_raises rt s kw e :
  In s (steps rt) -> step_new s kw = Raise e ->
  exists errs, e = ValidationError (step_cls s) errs.
Proof.
  unfold steps.
  intros [<- | [<- | [<- | [<- | [<- | [<- | [<- | [<- | []]]]]]]]];
    cbn [step_new step_cls]; apply model_raise_inv.
Qed.

(** ** How the loader fails *)



(** X5: a [ValidationError] raised by [create_config] is the one a
    constructor raised, unchanged: either the class of one step, called
    on the keywords of its section, raised exactly that error, or all
    eight steps built and it is the aggregate's error for an environment
    name outside the enumeration. *)
Theorem create_config_validation_error_unchanged
    (rt : runtime) (self : ConfigLoader.t) (w w' : world)
    (title : string) (errors : list error_details) :
  ConfigLoader.create_config rt self w = (Raise (ValidationError title errors), w') ->
  exists doc,
    files w !! ConfigLoader.config_path self = Some (Document doc)
    /\ ((exists s, In s (steps rt)
                   /\ step_cls s = title
                   /\ fails_in_call doc s (ValidationError title errors))
        \/ (Forall (builds doc) (steps rt)
            /\ ValidationError title errors = env_name_error
            /\ ~ In (ConfigLoader.env_name self) ["dev"; "staging"; "prod"]%string)).
Proof.
  intros H. apply create_config_raise_inv in H
    as [[_ H] | [[_ H] | (doc & Hfile & [Hstep | Haggregate])]]; try discriminate.
  - exists doc. split; [exact Hfile |]. left.
    destruct Hstep as (before & s & after & Hsplit & _ & Hf).
    assert (Hin : In s (steps rt)).
    { rewrite Hsplit. apply in_or_app. right. left. reflexivity. }
    exists s. split; [exact Hin |].
    destruct Hf as [[Hs | (sec & _ & Hu)] | Hcall].
    + apply subscript_raise_inv in Hs as [[? _] | [? _]]; discriminate.
    + apply unpack_raise_inv in Hu. discriminate.
    + split; [| exact Hcall].
      destruct Hcall as (sec & kw & _ & _ & Hn).
      destruct (step_call_raises rt s kw _ Hin Hn) as (errs & E). congruence.
  - exists doc. split; [exact Hfile |]. right. exact Haggregate.
Qed.

Lemma create_config_validation_error_unchanged_witness :
  exists doc,
    ({[ ConfigLoader.config_path sample_loader := Document equal_capacities_document ]}
       : gmap string yaml_content) !! ConfigLoader.config_path sample_loader
    = Some (Document doc).
Proof.
  assert (Hrun :
    ConfigLoader.create_config sample_runtime sample_loader
      (World {[ ConfigLoader.config_path sample_loader
                  := Document equal_capacities_document ]} [])
    = (Raise (ValidationError "DatabaseConfig"
                [ErrorDetails [] (value_error
                   (DatabaseConfig.capacity_message sample_runtime float_2_0 float_2_0))]),
       World {[ ConfigLoader.config_path sample_loader
                  := Document equal_capacities_document ]}
             [Open (ConfigLoader.config_path sample_loader);
              Called "AwsConfig"; Called "VpcConfig"; Called "DatabaseConfig"])).
  { vm_compute. reflexivity. }
  destruct (create_config_validation_error_unchanged _ _ _ _ _ _ Hrun) as (doc & Hdoc & _).
  exists doc. exact Hdoc.
Defined.

(** X6: when the document is a mapping that lacks the section of a step
    and every earlier step builds, [create_config] raises [KeyError] for
    that section, having called only the classes of the earlier steps. *)
Theorem create_config_missing_section
    (rt : runtime) (self : ConfigLoader.t) (w : world)
    (d : list (pyvalue * pyvalue)) (before after : list step) (s : step) :
  files w !! ConfigLoader.config_path self = Some (Document (PyDict d)) ->
  steps rt = before ++ s :: after ->
  Forall (builds (PyDict d)) before ->
  find (str_key (step_key s)) d = None ->
  ConfigLoader.create_config rt self w =
    (Raise (KeyError (step_key s)),
     World (files w)
       (trace w ++ Open (ConfigLoader.config_path self)
          :: map Called (map step_cls before))).
Proof.
  intros Hfile Hsplit Hbefore Hmiss.
  apply (create_config_first_failure rt self w _ before s after _ Hfile Hsplit Hbefore).
  left. simpl. rewrite Hmiss. reflexivity.
Qed.

Lemma create_config_missing_section_witness :
  ConfigLoader.create_config sample_runtime sample_loader
    (World {[ ConfigLoader.config_path sample_loader := Document no_vpc_document ]} [])
  = (Raise (KeyError "vpc"),
     World {[ ConfigLoader.config_path sample_loader := Document no_vpc_document ]}
           [Open (ConfigLoader.config_path sample_loader); Called "AwsConfig"]).
Proof.
  assert (Haws : Forall (builds no_vpc_document)
                   [Step "aws" "AwsConfig" AwsConfig.t AwsConfig.new]).
  { constructor; [| constructor].
    do 2 eexists. split; [reflexivity | split; [reflexivity | eexists; reflexivity]]. }
  exact (create_config_missing_section sample_runtime sample_loader
           (World {[ ConfigLoader.config_path sample_loader := Document no_vpc_document ]} [])
           [sample_aws_section]
           [Step "aws" "AwsConfig" AwsConfig.t AwsConfig.new]
           (tl (tl (steps sample_runtime)))
           (Step "vpc" "VpcConfig" VpcConfig.t (VpcConfig.new sample_runtime))
           eq_refl eq_refl Haws eq_refl).
Defined.

(** X7: when the section of a step is present but is not a mapping (a
    section left empty is null) and every earlier step builds,
    [create_config] raises [TypeError] without calling the step's class,
    even if every field of that class has a default. *)
Theorem create_config_section_not_a_mapping
    (rt : runtime) (self : ConfigLoader.t) (w : world)
    (doc sec : pyvalue) (before after : list step) (s : step) :
  files w !! ConfigLoader.config_path self = Some (Document doc) ->
  steps rt = before ++ s :: after ->
  Forall (builds doc) before ->
  subscript doc (step_key s) = Ok sec ->
  (forall d, sec <> PyDict d) ->
  ConfigLoader.create_config rt self w =
    (Raise TypeError,
     World (files w)
       (trace w ++ Open (ConfigLoader.config_path self)
          :: map Called (map step_cls before))).
Proof.
  intros Hfile Hsplit Hbefore Hsec Hnot.
  apply (create_config_first_failure rt self w _ before s after _ Hfile Hsplit Hbefore).
  right. exists sec. split; [exact Hsec |].
  destruct sec; try reflexivity. exfalso. exact (Hnot d eq_refl).
Qed.

Lemma create_config_section_not_a_mapping_witness :
  ConfigLoader.create_config sample_runtime sample_loader
    (World {[ ConfigLoader.config_path sample_loader := Document null_vpc_document ]} [])
  = (Raise TypeError,
     World {[ ConfigLoader.config_path sample_loader := Document null_vpc_document ]}
           [Open (ConfigLoader.config_path sample_loader); Called "AwsConfig"]).
Proof.
  assert (Haws : Forall (builds null_vpc_document)
                   [Step "aws" "AwsConfig" AwsConfig.t AwsConfig.new]).
  { constructor; [| constructor].
    do 2 eexists. split; [reflexivity | split; [reflexivity | eexists; reflexivity]]. }
  assert (Hnull : forall d, PyNone <> PyDict d) by discriminate.
  exact (create_config_section_not_a_mapping sample_runtime sample_loader
           (World {[ ConfigLoader.config_path sample_loader := Document null_vpc_document ]} [])
           null_vpc_document PyNone
           [Step "aws" "AwsConfig" AwsConfig.t AwsConfig.new]
           (tl (tl (steps sample_runtime)))
           (Step "vpc" "VpcConfig" VpcConfig.t (VpcConfig.new sample_runtime))
           eq_refl eq_refl Haws eq_refl Hnull).
Defined.

(** X8: when the class of a step refuses the keywords of its section
    and every earlier step builds, [create_config] raises that very
    error; the classes called are those of the earlier steps and of the
    failing one, so no later sub-config and no aggregate is constructed. *)
Theorem create_config_stops_at_invalid_section
    (rt : runtime) (self : ConfigLoader.t) (w : world)
    (doc sec : pyvalue) (kw : gmap string pyvalue)
    (before after : list step) (s : step) (e : exception) :
  files w !! ConfigLoader.config_path self = Some (Document doc) ->
  steps rt = before ++ s :: after ->
  Forall (builds doc) before ->
  subscript doc (step_key s) = Ok sec ->
  unpack sec = Ok kw ->
  step_new s kw = Raise e ->
  ConfigLoader.create_config rt self w =
    (Raise e,
     World (files w)
       (trace w ++ Open (ConfigLoader.config_path self)
          :: map Called (map step_cls (before ++ [s])))).
Proof.
  intros Hfile Hsplit Hbefore Hsec Hkw Hnew.
  apply (create_config_first_failure rt self w _ before s after _ Hfile Hsplit Hbefore).
  exists sec, kw. auto.
Qed.

Lemma create_config_stops_at_invalid_section_witness :
  ConfigLoader.create_config sample_runtime sample_loader
    (World {[ ConfigLoader.config_path sample_loader
                := Document equal_capacities_document ]} [])
  = (Raise (ValidationError "DatabaseConfig"
              [ErrorDetails [] (value_error
                 (DatabaseConfig.capacity_message sample_runtime float_2_0 float_2_0))]),
     World {[ ConfigLoader.config_path sample_loader
                := Document equal_capacities_document ]}
           [Open (ConfigLoader.config_path sample_loader);
            Called "AwsConfig"; Called "VpcConfig"; Called "DatabaseConfig"]).
Proof.
  assert (Hbefore : Forall (builds equal_capacities_document)
                      [Step "aws" "AwsConfig" AwsConfig.t AwsConfig.new;
                       Step "vpc" "VpcConfig" VpcConfig.t (VpcConfig.new sample_runtime)]).
  { repeat constructor;
      do 2 eexists; (split; [reflexivity | split; [reflexivity | eexists; reflexivity]]). }
  exact (create_config_stops_at_invalid_section sample_runtime sample_loader
           (World {[ ConfigLoader.config_path sample_loader
                       := Document equal_capacities_document ]} [])
           equal_capacities_document
           (PyDict [(PyStr "serverless_v2_min_capacity", PyFloat float_2_0)])
           {[ "serverless_v2_min_capacity"%string := PyFloat float_2_0 ]}
           [Step "aws" "AwsConfig" AwsConfig.t AwsConfig.new;
            Step "vpc" "VpcConfig" VpcConfig.t (VpcConfig.new sample_runtime)]
           (tl (tl (tl (steps sample_runtime))))
           (Step "database" "DatabaseConfig" DatabaseConfig.t
              (DatabaseConfig.new sample_runtime))
           _ eq_refl eq_refl Hbefore eq_refl eq_refl eq_refl).
Defined.

(** X9: when the environment file holds a document all of whose eight
    steps build and the environment name is "dev", "staging" or "prod",
    [create_config] returns an aggregate made of exactly the sub-configs
    the steps built, with that environment and the loader's project name,
    after calling the nine classes in order. *)
Theorem create_config_succeeds
    (rt : runtime) (self : ConfigLoader.t) (w : world) (doc : pyvalue) :
  files w !! ConfigLoader.config_path self = Some (Document doc) ->
  Forall (builds doc) (steps rt) ->
  In (ConfigLoader.env_name self) ["dev"; "staging"; "prod"]%string ->
  exists cfg,
    ConfigLoader.create_config rt self w =
      (Ok cfg,
       World (files w)
         (trace w ++ Open (ConfigLoader.config_path self) :: map Called model_names))
    /\ EnvironmentName_value (BaseConfig.env_name cfg) = ConfigLoader.env_name self
    /\ BaseConfig.project_name cfg = ConfigLoader.project_name self
    /\ section doc "aws" (fun kw => AwsConfig.new kw = Ok (InfrastructureConfig.aws cfg))
    /\ section doc "vpc" (fun kw => VpcConfig.new rt kw = Ok (InfrastructureConfig.vpc cfg))
    /\ section doc "database"
         (fun kw => DatabaseConfig.new rt kw = Ok (InfrastructureConfig.database cfg))
    /\ section doc "backend"
         (fun kw => BackendConfig.new rt kw = Ok (InfrastructureConfig.backend cfg))
    /\ section doc "frontend"
         (fun kw => FrontendConfig.new rt kw = Ok (InfrastructureConfig.frontend cfg))
    /\ section doc "cicd_fronend"
         (fun kw => CICDFronendConfig.new rt kw = Ok (InfrastructureConfig.cicd_fronend cfg))
    /\ section doc "cicd_backend"
         (fun kw => CICDBackendConfig.new rt kw = Ok (InfrastructureConfig.cicd_backend cfg))
    /\ section doc "dns" (fun kw => DnsConfig.new kw = Ok (InfrastructureConfig.dns cfg)).
Proof.
  intros Hfile Hall Hin.
  destruct (create_config_all_built rt self w doc Hfile Hall)
    as (aws & vpc & database & backend & frontend & cf & cb & dns & Hrun & Hparts).
  destruct (InfrastructureConfig_new_known _ (ConfigLoader.project_name self)
              aws vpc database backend frontend cf cb dns Hin) as (e & He & Hok).
  eexists. split; [rewrite Hrun, Hok; reflexivity |].
  split; [exact He |]. split; [reflexivity |]. exact Hparts.
Qed.

(** X10: the environment name is checked last: when all eight steps
    build and the name is not "dev", "staging" or "prod", [create_config]
    raises the aggregate's validation error on [env_name], after all nine
    classes have been called. *)
Theorem create_config_unknown_environment
    (rt : runtime) (self : ConfigLoader.t) (w : world) (doc : pyvalue) :
  files w !! ConfigLoader.config_path self = Some (Document doc) ->
  Forall (builds doc) (steps rt) ->
  ~ In (ConfigLoader.env_name self) ["dev"; "staging"; "prod"]%string ->
  ConfigLoader.create_config rt self w =
    (Raise (ValidationError "InfrastructureConfig"
              [ErrorDetails ["env_name"%string]
                 (enum_error "'dev', 'staging' or 'prod'")]),
     World (files w)
       (trace w ++ Open (ConfigLoader.config_path self) :: map Called model_names)).
Proof.
  intros Hfile Hall Hout.
  destruct (create_config_all_built rt self w doc Hfile Hall)
    as (aws & vpc & database & backend & frontend & cf & cb & dns & Hrun & _).
  rewrite Hrun, (InfrastructureConfig_new_unknown _ _ _ _ _ _ _ _ _ _ Hout).
  reflexivity.
Qed.

(** X11: a file whose document is not a mapping, such as an empty file
    (null), a list or a scalar, makes [create_config] raise [TypeError]
    before any class is called. *)
Theorem create_config_document_not_a_mapping
    (rt : runtime) (self : ConfigLoader.t) (w : world) (doc : pyvalue) :
  files w !! ConfigLoader.config_path self = Some (Document doc) ->
  (forall d, doc <> PyDict d) ->
  ConfigLoader.create_config rt self w =
    (Raise TypeError,
     World (files w) (trace w ++ [Open (ConfigLoader.config_path self)])).
Proof.
  intros Hfile Hnot.
  apply (create_config_first_failure rt self w doc [] _ _ _ Hfile eq_refl (List.Forall_nil _)).
  left. cbn [step_key]. destruct doc; try reflexivity. exfalso. exact (Hnot d eq_refl).
Qed.

Lemma create_config_document_not_a_mapping_witness :
  ConfigLoader.create_config sample_runtime sample_loader
    (World {[ ConfigLoader.config_path sample_loader := Document PyNone ]} [])
  = (Raise TypeError,
     World {[ ConfigLoader.config_path sample_loader := Document PyNone ]}
           [Open (ConfigLoader.config_path sample_loader)]).
Proof.
  assert (Hnull : forall d, PyNone <> PyDict d) by discriminate.
  exact (create_config_document_not_a_mapping sample_runtime sample_loader
           (World {[ ConfigLoader.config_path sample_loader := Document PyNone ]} [])
           PyNone eq_refl Hnull).
Defined.

Lemma sample_document_builds rt : Forall (builds sample_document) (steps rt).
Proof.
  repeat constructor;
    do 2 eexists; (split; [reflexivity | split; [reflexivity | eexists; reflexivity]]).
Qed.

Lemma create_config_succeeds_witness :
  exists cfg,
    fst (ConfigLoader.create_config sample_runtime sample_loader
           (World {[ ConfigLoader.config_path sample_loader := Document sample_document ]} []))
    = Ok cfg
    /\ BaseConfig.project_name cfg = "acme"%string
    /\ EnvironmentName_value (BaseConfig.env_name cfg) = "dev"%string.
Proof.
  assert (Hin : In (ConfigLoader.env_name sample_loader) ["dev"; "staging"; "prod"]%string)
    by (left; reflexivity).
  assert (Hfile :
    files (World {[ ConfigLoader.config_path sample_loader := Document sample_document ]} [])
      !! ConfigLoader.config_path sample_loader = Some (Document sample_document))
    by (vm_compute; reflexivity).
  destruct (create_config_succeeds sample_runtime sample_loader _
              sample_document Hfile (sample_document_builds sample_runtime) Hin)
    as (cfg & Hrun & Henv & Hproject & _).
  exists cfg. rewrite Hrun. split; [reflexivity | split; [exact Hproject | exact Henv]].
Defined.

Lemma create_config_unknown_environment_witness :
  ConfigLoader.create_config sample_runtime
    (ConfigLoader.init "/app/cdk/config" "qa" "acme")
    (World {[ "/app/cdk/config/environments/qa.yaml"%string := Document sample_document ]} [])
  = (Raise (ValidationError "InfrastructureConfig"
              [ErrorDetails ["env_name"%string]
                 (enum_error "'dev', 'staging' or 'prod'")]),
     World {[ "/app/cdk/config/environments/qa.yaml"%string := Document sample_document ]}
           (Open "/app/cdk/config/environments/qa.yaml" :: map Called model_names)).
Proof.
  assert (Hout : ~ In (ConfigLoader.env_name (ConfigLoader.init "/app/cdk/config" "qa" "acme"))
                      ["dev"; "staging"; "prod"]%string).
  { simpl. intros [H | [H | [H | []]]]; discriminate H. }
  assert (Hfile :
    files (World {[ "/app/cdk/config/environments/qa.yaml"%string
                      := Document sample_document ]} [])
      !! ConfigLoader.config_path (ConfigLoader.init "/app/cdk/config" "qa" "acme")
    = Some (Document sample_document))
    by (vm_compute; reflexivity).
  exact (create_config_unknown_environment sample_runtime
           (ConfigLoader.init "/app/cdk/config" "qa" "acme") _
           sample_document Hfile (sample_document_builds sample_runtime) Hout).
Defined.

(** ** What every constructed sub-config satisfies *)

Lemma field_float_ge_ok rt kw name d b x :
  field kw name (Some d) (float_field_ge rt b (validate_float rt)) = inr x ->
  float_ge x b = true \/ x = d.
Proof.
  unfold field, float_field_ge. destruct (kw !! name) as [given |].
  - destruct (validate_float rt given) as [es | f]; simpl; [discriminate |].
    destruct (float_ge f b) eqn:E; simpl; [| discriminate].
    intros H. injection H as <-. auto.
  - intros H. injection H as <-. auto.
Qed.

Lemma field_int_ge_ok rt kw name d b x :
  field kw name (Some d) (int_ge b (validate_int rt)) = inr x -> b <= x \/ x = d.
Proof.
  unfold field, int_ge. destruct (kw !! name) as [given |].
  - destruct (validate_int rt given) as [es | z]; simpl; [discriminate |].
    destruct (Z.geb_spec z b) as [E | E]; simpl; [| discriminate].
    intros H. injection H as <-. left. lia.
  - intros H. injection H as <-. auto.
Qed.

Lemma field_pattern_ok rt kw name d pat s :
  field kw name (Some d) (str_pattern rt pat) = inr s ->
  Regex.is_match rt pat s = true \/ s = d.
Proof.
  unfold field, str_pattern. destruct (kw !! name) as [given |].
  - destruct (validate_str given) as [es | s']; simpl; [discriminate |].
    destruct (Regex.is_match rt pat s') eqn:E; simpl; [| discriminate].
    intros H. injection H as <-. auto.
  - intros H. injection H as <-. auto.
Qed.

Lemma float_not_ge_lt (x y : spec_float) :
  x <> S754_nan -> y <> S754_nan -> float_ge x y = false -> float_lt x y = true.
Proof.
  intros Hx Hy. unfold float_ge, float_lt, SFleb, SFltb.
  destruct (SFcompare y x) as [c |] eqn:E.
  - rewrite (SFcompare_antisym _ _ _ E). destruct c; simpl; congruence.
  - destruct x, y; simpl in E; try discriminate; congruence.
Qed.

Lemma float_ge_not_nan (x y : spec_float) : float_ge x y = true -> x <> S754_nan.
Proof. intros H ->. destruct y; discriminate H. Qed.

(** X12: every [DatabaseConfig] that construction returns has a minimum
    capacity of at least 0.5 that is not greater than or equal to the
    maximum; when the maximum is a number (not NaN), the minimum is
    strictly below it. *)
Theorem DatabaseConfig_invariant
    (rt : runtime) (kw : gmap string pyvalue) (c : DatabaseConfig.t) :
  DatabaseConfig.new rt kw = Ok c ->
  float_ge (DatabaseConfig.serverless_v2_min_capacity c) float_0_5 = true
  /\ float_ge (DatabaseConfig.serverless_v2_min_capacity c)
              (DatabaseConfig.serverless_v2_max_capacity c) = false
  /\ (DatabaseConfig.serverless_v2_max_capacity c <> S754_nan ->
      float_lt (DatabaseConfig.serverless_v2_min_capacity c)
               (DatabaseConfig.serverless_v2_max_capacity c) = true).
Proof.
  intros H. apply model_ok_inv in H as (self & H & Hv).
  unfold DatabaseConfig.validate_capacity in Hv.
  destruct (float_ge _ _) eqn:Hcross; [discriminate |]. injection Hv as <-.
  vap_inv H. simpl in *.
  assert (Hfloor : float_ge a1 float_0_5 = true).
  { match goal with
    | Hmin : field _ _ _ (float_field_ge _ _ _) = inr _ |- _ =>
        destruct (field_float_ge_ok _ _ _ _ _ _ Hmin) as [Hge | ->]; [exact Hge | reflexivity]
    end. }
  split; [exact Hfloor | split; [exact Hcross |]].
  intros Hmax. apply float_not_ge_lt; [| exact Hmax | exact Hcross].
  exact (float_ge_not_nan _ _ Hfloor).
Qed.

Lemma DatabaseConfig_invariant_witness :
  float_ge float_1_0 float_0_5 = true
  /\ float_ge float_1_0 float_2_0 = false
  /\ (float_2_0 <> S754_nan -> float_lt float_1_0 float_2_0 = true).
Proof.
  exact (DatabaseConfig_invariant sample_runtime
           {[ "serverless_v2_min_capacity"%string := PyFloat float_1_0 ]}
           (DatabaseConfig.Build None 2 false float_1_0 float_2_0 "postgres") eq_refl).
Defined.

(** X13: every [BackendConfig] that construction returns has
    [1 <= auto_scaling_min_capacity < auto_scaling_max_capacity], hence a
    maximum of at least 2. *)
Theorem BackendConfig_invariant
    (rt : runtime) (kw : gmap string pyvalue) (c : BackendConfig.t) :
  BackendConfig.new rt kw = Ok c ->
  1 <= BackendConfig.auto_scaling_min_capacity c
         < BackendConfig.auto_scaling_max_capacity c
  /\ 2 <= BackendConfig.auto_scaling_max_capacity c.
Proof.
  intros H. apply model_ok_inv in H as (self & H & Hv).
  unfold BackendConfig.validate_auto_scaling in Hv.
  destruct (Z.geb_spec (BackendConfig.auto_scaling_min_capacity self)
                       (BackendConfig.auto_scaling_max_capacity self)) as [_ | Hlt];
    [discriminate |].
  injection Hv as <-. vap_inv H. simpl in *.
  match goal with
  | Hmin : field _ _ _ (int_ge _ _) = inr _ |- _ =>
      destruct (field_int_ge_ok _ _ _ _ _ _ Hmin) as [Hge | ->]; lia
  end.
Qed.

Lemma BackendConfig_invariant_witness :
  1 <= 2 < 4 /\ 2 <= 4.
Proof.
  exact (BackendConfig_invariant sample_runtime
           {[ "auto_scaling_min_capacity"%string := PyInt 2;
              "auto_scaling_max_capacity"%string := PyInt 4 ]}
           (BackendConfig.Build "500m" "512Mi" 1 BackendConfig.default_certificate_arn []
              2 4 "services/ecs/fastapi_app" "lastest") eq_refl).
Defined.

(** Concludes that the ARN of a constructed model matches, from the
    equation of its field and the match of the default. *)
Ltac arn_matches Hdefault :=
  match goal with
  | Harn : field _ _ _ (str_pattern _ _) = inr _ |- _ =>
      destruct (field_pattern_ok _ _ _ _ _ _ Harn) as [Hm | ->];
      [exact Hm | exact Hdefault]
  end.

(** X14: the ARN held by every constructed [BackendConfig],
    [FrontendConfig], [CICDFronendConfig] and [CICDBackendConfig] matches
    the pattern of its field, whether it came from the keywords or from
    the default. *)
Theorem constructed_arns_match (rt : runtime) (kw : gmap string pyvalue) :
  (forall c, BackendConfig.new rt kw = Ok c ->
     Regex.is_match rt Regex.acm_certificate_arn (BackendConfig.certificate_arn c) = true)
  /\ (forall c, FrontendConfig.new rt kw = Ok c ->
        Regex.is_match rt Regex.acm_certificate_arn (FrontendConfig.certificate_arn c) = true)
  /\ (forall c, CICDFronendConfig.new rt kw = Ok c ->
        Regex.is_match rt Regex.codeconnections_arn
          (CICDFronendConfig.github_connection_arn c) = true)
  /\ (forall c, CICDBackendConfig.new rt kw = Ok c ->
        Regex.is_match rt Regex.codeconnections_arn
          (CICDBackendConfig.github_connection_arn c) = true).
Proof.
  destruct (default_arns_match rt) as (HB & HF & HC).
  repeat split; intros c H; apply model_ok_inv in H as (self & H & Hv).
  - unfold BackendConfig.validate_auto_scaling in Hv.
    destruct (_ >=? _); [discriminate |]. injection Hv as <-.
    vap_inv H. simpl. arn_matches HB.
  - injection Hv as <-. vap_inv H. simpl. arn_matches HF.
  - injection Hv as <-. vap_inv H. simpl. arn_matches HC.
  - injection Hv as <-. vap_inv H. simpl. arn_matches HC.
Qed.

Lemma constructed_arns_match_witness :
  Regex.is_match sample_runtime Regex.acm_certificate_arn
    "arn:aws:acm:us-east-1:123456789012:certificate/abc-123" = true.
Proof.
  exact (proj1 (proj2 (constructed_arns_match sample_runtime
           {[ "certificate_arn"%string :=
                PyStr "arn:aws:acm:us-east-1:123456789012:certificate/abc-123" ]}))
           (FrontendConfig.Build "dev-frontend.piercuta.com"
              "arn:aws:acm:us-east-1:123456789012:certificate/abc-123" "acm")
           eq_refl).
Defined.

(** ** Keywords that name no field *)

Lemma field_insert_other {T} kw k v name (d : option T) (val : validator T) :
  k <> name -> field (<[k := v]> kw) name d val = field kw name d val.
Proof. intros Hne. unfold field. rewrite lookup_insert_ne by exact Hne. reflexivity. Qed.

(** Rewrites every field of the goal read from [<[k := v]> kw] into the
    field read from [kw], [k] being none of the names in [Hout]. *)
Ltac drop_keyword Hout :=
  rewrite !field_insert_other
    by (intros ->; apply Hout; simpl; auto 12);
  reflexivity.

(** X15: a keyword that is not the name of a field is ignored: adding it
    to the keywords changes nothing in what construction returns, for
    each of the eight sub-configs (so a misspelt key of the environment
    file silently leaves its field at the default). *)
Theorem unknown_keywords_are_ignored
    (rt : runtime) (kw : gmap string pyvalue) (k : string) (v : pyvalue) :
  (~ In k AwsConfig_fields -> AwsConfig.new (<[k := v]> kw) = AwsConfig.new kw)
  /\ (~ In k VpcConfig_fields -> VpcConfig.new rt (<[k := v]> kw) = VpcConfig.new rt kw)
  /\ (~ In k DatabaseConfig_fields ->
      DatabaseConfig.new rt (<[k := v]> kw) = DatabaseConfig.new rt kw)
  /\ (~ In k BackendConfig_fields ->
      BackendConfig.new rt (<[k := v]> kw) = BackendConfig.new rt kw)
  /\ (~ In k FrontendConfig_fields ->
      FrontendConfig.new rt (<[k := v]> kw) = FrontendConfig.new rt kw)
  /\ (~ In k CICDFronendConfig_fields ->
      CICDFronendConfig.new rt (<[k := v]> kw) = CICDFronendConfig.new rt kw)
  /\ (~ In k CICDBackendConfig_fields ->
      CICDBackendConfig.new rt (<[k := v]> kw) = CICDBackendConfig.new rt kw)
  /\ (~ In k DnsConfig_fields -> DnsConfig.new (<[k := v]> kw) = DnsConfig.new kw).
Proof.
  repeat split; intros Hout.
  - unfold AwsConfig.new. drop_keyword Hout.
  - unfold VpcConfig.new. drop_keyword Hout.
  - unfold DatabaseConfig.new. drop_keyword Hout.
  - unfold BackendConfig.new. drop_keyword Hout.
  - unfold FrontendConfig.new. drop_keyword Hout.
  - unfold CICDFronendConfig.new. drop_keyword Hout.
  - unfold CICDBackendConfig.new. drop_keyword Hout.
  - unfold DnsConfig.new. drop_keyword Hout.
Qed.

Lemma unknown_keywords_are_ignored_witness :
  VpcConfig.new sample_runtime (<[ "max_az"%string := PyInt 2 ]> ∅)
  = VpcConfig.new sample_runtime ∅.
Proof.
  assert (Hout : ~ In "max_az"%string VpcConfig_fields).
  { simpl. intros [H | [H | [H | [H | [H | []]]]]]; discriminate H. }
  exact (proj1 (proj2 (unknown_keywords_are_ignored sample_runtime ∅ "max_az" (PyInt 2)))
           Hout).
Defined.

(** ** Unchecked and defaulted fields *)

(** X16: [BackendConfig] puts no bound on [desired_count] and does not
    compare it with the auto-scaling capacities: with the other fields
    valid, construction succeeds for every integer, also zero, negative
    or above the maximum. *)
Theorem BackendConfig_accepts_any_desired_count
    (rt : runtime) (kw : gmap string pyvalue) (n : Z)
    (cpu mem arn : string) (vars : list (string * string)) (lo hi : Z)
    (repo tag : string) :
  kw !! "desired_count"%string = Some (PyInt n) ->
  field kw "task_cpu" (Some "500m"%string) validate_str = inr cpu ->
  field kw "task_memory" (Some "512Mi"%string) validate_str = inr mem ->
  field kw "certificate_arn" (Some BackendConfig.default_certificate_arn)
    (str_pattern rt Regex.acm_certificate_arn) = inr arn ->
  field kw "container_env_vars" (Some []) validate_dict_str_str = inr vars ->
  field kw "auto_scaling_min_capacity" (Some 1) (validate_int rt) = inr lo ->
  field kw "auto_scaling_max_capacity" (Some 5) (validate_int rt) = inr hi ->
  field kw "ecr_repository_name" (Some "services/ecs/fastapi_app"%string)
    validate_str = inr repo ->
  field kw "ecr_image_tag" (Some "lastest"%string) validate_str = inr tag ->
  1 <= lo < hi ->
  BackendConfig.new rt kw = Ok (BackendConfig.Build cpu mem n arn vars lo hi repo tag).
Proof.
  intros Hn Hcpu Hmem Harn Hvars Hlo Hhi Hrepo Htag [Hfloor Hlt].
  pose proof (field_int_ge_intro _ _ _ _ _ _ Hlo Hfloor) as Hlo'.
  unfold BackendConfig.new.
  rewrite (field_given kw "desired_count" _ _ _ n Hn eq_refl).
  rewrite Hcpu, Hmem, Harn, Hvars, Hlo', Hhi, Hrepo, Htag.
  unfold model, BackendConfig.validate_auto_scaling. simpl.
  destruct (Z.geb_spec lo hi) as [Hge | _]; [lia | reflexivity].
Qed.

Lemma BackendConfig_accepts_any_desired_count_witness :
  BackendConfig.new sample_runtime {[ "desired_count"%string := PyInt (-3) ]}
  = Ok (BackendConfig.Build "500m" "512Mi" (-3) BackendConfig.default_certificate_arn []
          1 5 "services/ecs/fastapi_app" "lastest").
Proof.
  assert (Hbounds : 1 <= 1 < 5) by lia.
  exact (BackendConfig_accepts_any_desired_count sample_runtime
           {[ "desired_count"%string := PyInt (-3) ]} (-3)
           "500m" "512Mi" BackendConfig.default_certificate_arn [] 1 5
           "services/ecs/fastapi_app" "lastest"
           eq_refl eq_refl eq_refl eq_refl eq_refl eq_refl eq_refl eq_refl eq_refl Hbounds).
Defined.

(** X17: from no keywords at all, every sub-config but [AwsConfig] is
    constructed and holds the schema's defaults, which therefore pass
    the schema's own constraints; [AwsConfig] is refused with one
    "missing" line for each of its two fields. *)
Theorem construction_from_no_keywords (rt : runtime) :
  VpcConfig.new rt ∅ = Ok (VpcConfig.Build "10.0.0.0/16" 3 3 1 true)
  /\ DatabaseConfig.new rt ∅
     = Ok (DatabaseConfig.Build None 2 false float_0_5 float_2_0 "postgres")
  /\ BackendConfig.new rt ∅
     = Ok (BackendConfig.Build "500m" "512Mi" 1
             "arn:aws:acm:eu-west-1:532673134317:certificate/905d0d16-87e8-4e89-a88c-b6053f472e81"
             [] 1 5 "services/ecs/fastapi_app" "lastest")
  /\ FrontendConfig.new rt ∅
     = Ok (FrontendConfig.Build "dev-frontend.piercuta.com"
             "arn:aws:acm:us-east-1:532673134317:certificate/0755fa69-6f18-451a-8987-d98c395089b9"
             "acm")
  /\ CICDFronendConfig.new rt ∅
     = Ok (CICDFronendConfig.Build
             "arn:aws:codeconnections:eu-west-1:532673134317:connection/2a30a395-8d38-43ab-827b-f39a83c9986a"
             "Piercuta" "full-stack-fastapi-front" "dev")
  /\ CICDBackendConfig.new rt ∅
     = Ok (CICDBackendConfig.Build
             "arn:aws:codeconnections:eu-west-1:532673134317:connection/2a30a395-8d38-43ab-827b-f39a83c9986a"
             "Piercuta" "full-stack-fastapi-backend" "dev")
  /\ DnsConfig.new ∅
     = Ok (DnsConfig.Build "Z0068506UV3AK4JBKP59" "piercuta.com"
             "dev-frontend.piercuta.com" "dev-backend.piercuta.com")
  /\ AwsConfig.new ∅
     = Raise (ValidationError "AwsConfig"
                [ErrorDetails ["account"%string] missing;
                 ErrorDetails ["region"%string] missing]).
Proof. repeat split. Qed.

(** ** Enumerations *)

(** X18: for both string enumerations, a field takes the member whose
    value is the given string and refuses any other string: validating
    the value of a member gives that member back, and a string that
    validates is the value of the member obtained. *)
Theorem enum_values_round_trip :
  (forall e, validate_EnvironmentName (PyStr (EnvironmentName_value e)) = inr e)
  /\ (forall s e, validate_EnvironmentName (PyStr s) = inr e -> EnvironmentName_value e = s)
  /\ (forall r, validate_AwsRegion (PyStr (AwsRegion_value r)) = inr r)
  /\ (forall s r, validate_AwsRegion (PyStr s) = inr r -> AwsRegion_value r = s).
Proof.
  repeat split.
  - intros e. destruct e; reflexivity.
  - intros s e. apply enum_member_value.
  - intros r. destruct r; reflexivity.
  - intros s r. apply enum_member_value.
Qed.

(** ** The variables of a container *)

Lemma dict_str_str_inv d l :
  dict_str_str d = inr l -> d = map (fun e => (PyStr (fst e), PyStr (snd e))) l.
Proof.
  revert l. induction d as [| [k v] d IH]; intros l H; simpl in H.
  - injection H as <-. reflexivity.
  - destruct k; simpl in H; try (destruct v, (dict_str_str d); discriminate H).
    destruct v; simpl in H; try (destruct (dict_str_str d); discriminate H).
    destruct (dict_str_str d) as [es | l'] eqn:E; [discriminate |].
    simpl in H. injection H as <-. simpl. rewrite (IH l' eq_refl). reflexivity.
Qed.


(** ** Names, tags and variables derived from the configuration *)

Lemma prefix_injective (self : BaseConfig.t) (b1 b2 : string) :
  BaseConfig.prefix self b1 = BaseConfig.prefix self b2 -> b1 = b2.
Proof.
  unfold BaseConfig.prefix. intros H.
  repeat apply append_cancel_l in H. exact H.
Qed.

Lemma NoDup_map_injective {A B} (f : A -> B) (l : list A) :
  (forall x y, f x = f y -> x = y) -> NoDup l -> NoDup (map f l).
Proof.
  intros Hinj Hl. induction Hl as [| x l Hx Hl IH]; simpl; constructor.
  - rewrite list_elem_of_In, in_map_iff. intros (y & Hy & Hin).
    apply Hinj in Hy as ->. apply Hx. rewrite list_elem_of_In. exact Hin.
  - exact IH.
Qed.

(** X20: on one configuration, [prefix] gives different names to
    different bases; in particular the six stack names [app.py] passes
    are pairwise distinct. *)
Theorem stack_names_are_distinct (config : InfrastructureConfig.t) :
  (forall b1 b2, BaseConfig.prefix config b1 = BaseConfig.prefix config b2 -> b1 = b2)
  /\ NoDup (app_stack_names config)
  /\ length (app_stack_names config) = 6%nat.
Proof.
  split; [apply prefix_injective | split; [| reflexivity]].
  unfold app_stack_names. apply NoDup_map_injective.
  - intros b1 b2. apply prefix_injective.
  - unfold stack_bases. apply (bool_decide_unpack _). vm_compute. reflexivity.
Qed.

(** X21: after [add_stack_global_tags] a stack carries the three standard
    tags with the configuration's values, whatever it carried under
    those keys before; every other tag is left as it was; and adding the
    tags a second time changes nothing. *)
Theorem add_stack_global_tags_sets_three (self : BaseConfig.t) (stack : Stack) :
  stack_tags (add_stack_global_tags self stack) !! "EnvName"%string
    = Some (BaseConfig.env_name_str self)
  /\ stack_tags (add_stack_global_tags self stack) !! "ProjectName"%string
     = Some (BaseConfig.project_name self)
  /\ stack_tags (add_stack_global_tags self stack) !! "ManagedBy"%string
     = Some "CDK"%string
  /\ (forall key, ~ In key ["EnvName"; "ProjectName"; "ManagedBy"]%string ->
        stack_tags (add_stack_global_tags self stack) !! key = stack_tags stack !! key)
  /\ add_stack_global_tags self (add_stack_global_tags self stack)
     = add_stack_global_tags self stack.
Proof.
  assert (Htags : forall st,
    stack_tags (add_stack_global_tags self st)
    = <["ManagedBy"%string := "CDK"%string]>
        (<["ProjectName"%string := BaseConfig.project_name self]>
           (<["EnvName"%string := BaseConfig.env_name_str self]> (stack_tags st)))).
  { intros st. reflexivity. }
  repeat split.
  - rewrite Htags. rewrite !lookup_insert_ne by discriminate. apply lookup_insert_eq.
  - rewrite Htags. rewrite lookup_insert_ne by discriminate. apply lookup_insert_eq.
  - rewrite Htags. apply lookup_insert_eq.
  - intros key Hout. rewrite Htags.
    rewrite !lookup_insert_ne; [reflexivity | | |];
      intros <-; apply Hout; simpl; auto.
  - assert (E : stack_tags (add_stack_global_tags self (add_stack_global_tags self stack))
                = stack_tags (add_stack_global_tags self stack)).
    { rewrite (Htags (add_stack_global_tags self stack)), Htags.
      apply map_eq. intros key. rewrite !lookup_insert.
      repeat case_decide; reflexivity. }
    destruct (add_stack_global_tags self (add_stack_global_tags self stack)) as [t1].
    destruct (add_stack_global_tags self stack) as [t2].
    simpl in E. rewrite E. reflexivity.
Qed.

Lemma dict_update_notin (d : gmap string string) (l : list (string * string)) (k : string) :
  ~ In k (map fst l) -> dict_update d l !! k = d !! k.
Proof.
  revert d. induction l as [| [k' v'] l IH]; intros d Hout; [reflexivity |].
  change (dict_update (<[k' := v']> d) l !! k = d !! k).
  rewrite IH by (intros Hin; apply Hout; right; exact Hin).
  apply lookup_insert_ne. intros ->. apply Hout. left. reflexivity.
Qed.

Lemma dict_update_in (d : gmap string string) (l : list (string * string)) (k v : string) :
  NoDup (map fst l) -> In (k, v) l -> dict_update d l !! k = Some v.
Proof.
  revert d. induction l as [| [k' v'] l IH]; intros d Hnd Hin; [destruct Hin |].
  simpl in Hnd. apply NoDup_cons in Hnd as [Hfresh Hnd].
  change (dict_update (<[k' := v']> d) l !! k = Some v).
  destruct Hin as [E | Hin].
  - injection E as -> ->.
    rewrite dict_update_notin by (rewrite <- list_elem_of_In; exact Hfresh).
    apply lookup_insert_eq.
  - apply IH; assumption.
Qed.

Lemma dict_update_keeps_keys (d : gmap string string) (l : list (string * string)) (k : string) :
  is_Some (d !! k) -> is_Some (dict_update d l !! k).
Proof.
  revert d. induction l as [| [k' v'] l IH]; intros d Hk; [exact Hk |].
  change (is_Some (dict_update (<[k' := v']> d) l !! k)).
  apply IH. rewrite lookup_insert. case_decide; [eauto | exact Hk].
Qed.

Lemma dict_update_binds_keys (l : list (string * string)) (k : string) :
  In k (map fst l) -> is_Some (dict_update ∅ l !! k).
Proof.
  generalize (∅ : gmap string string).
  induction l as [| [k' v'] l IH]; intros d Hin; [destruct Hin |].
  change (is_Some (dict_update (<[k' := v']> d) l !! k)).
  destruct Hin as [<- | Hin].
  - apply dict_update_keeps_keys. rewrite lookup_insert_eq. eauto.
  - apply IH. exact Hin.
Qed.

(** X22: in the variables of the backend build, an entry of
    [container_env_vars] replaces the built-in variable of the same name;
    a name that [container_env_vars] does not mention keeps its built-in
    value; and each of the eighteen built-in names is always bound. *)
Theorem backend_build_env_vars_override
    (config : InfrastructureConfig.t)
    (service_account_role_arn repository_uri db_endpoint db_secret_arn : string)
    (k : string) :
  NoDup (map fst (BackendConfig.container_env_vars (InfrastructureConfig.backend config))) ->
  (forall v,
     In (k, v) (BackendConfig.container_env_vars (InfrastructureConfig.backend config)) ->
     CICDBackendStack.env_vars config service_account_role_arn repository_uri
       db_endpoint db_secret_arn !! k = Some v)
  /\ (~ In k (map fst (BackendConfig.container_env_vars
                         (InfrastructureConfig.backend config))) ->
      CICDBackendStack.env_vars config service_account_role_arn repository_uri
        db_endpoint db_secret_arn !! k
      = dict_update ∅
          (CICDBackendStack.builtin_env_vars config service_account_role_arn
             repository_uri db_endpoint db_secret_arn) !! k)
  /\ (In k (map fst (CICDBackendStack.builtin_env_vars config service_account_role_arn
                       repository_uri db_endpoint db_secret_arn)) ->
      is_Some (CICDBackendStack.env_vars config service_account_role_arn repository_uri
                 db_endpoint db_secret_arn !! k)).
Proof.
  intros Hnd. unfold CICDBackendStack.env_vars. split; [| split].
  - intros v Hin. apply dict_update_in; assumption.
  - intros Hout. apply dict_update_notin. exact Hout.
  - intros Hin. apply dict_update_keeps_keys. apply dict_update_binds_keys. exact Hin.
Qed.

Lemma create_config_ok_base rt self w cfg w' :
  ConfigLoader.create_config rt self w = (Ok cfg, w') ->
  BaseConfig.env_name_str cfg = ConfigLoader.env_name self
  /\ BaseConfig.project_name cfg = ConfigLoader.project_name self.
Proof.
  intros H. unfold ConfigLoader.create_config in H.
  do 9 (apply bind_ok_inv in H as (? & ? & _ & H)).
  apply bind_ok_inv in H as (u & w9 & _ & H).
  apply lift_ok_inv in H.
  apply InfrastructureConfig_new_inv in H as (e & He & ->).
  split; [exact He | reflexivity].
Qed.

(** X23: on the aggregate [create_config] returns, [prefix] and [tags]
    are made of the strings the loader was given: [prefix(base)] is
    [<project_name>-<env_name>-<base>] and the tags are EnvName, the
    loader's environment name, ProjectName, its project name, and
    ManagedBy, "CDK". *)
Theorem loaded_config_names_from_loader
    (rt : runtime) (self : ConfigLoader.t) (w w' : world)
    (cfg : InfrastructureConfig.t) (base : string) :
  ConfigLoader.create_config rt self w = (Ok cfg, w') ->
  BaseConfig.prefix cfg base =
    ConfigLoader.project_name self +:+ "-" +:+ ConfigLoader.env_name self +:+ "-" +:+ base
  /\ BaseConfig.tags cfg =
       [("EnvName", ConfigLoader.env_name self);
        ("ProjectName", ConfigLoader.project_name self);
        ("ManagedBy", "CDK")]%string.
Proof.
  intros H. destruct (create_config_ok_base rt self w cfg w' H) as [Henv Hproject].
  unfold BaseConfig.prefix, BaseConfig.tags. rewrite Henv, Hproject. split; reflexivity.
Qed.

Lemma backend_build_env_vars_override_witness :
  CICDBackendStack.env_vars overriding_config "arn:role" "repo.uri" "db.host" "arn:secret"
    !! "POSTGRES_USER"%string = Some "app"%string.
Proof.
  assert (Hnd : NoDup (map fst (BackendConfig.container_env_vars
                                  (InfrastructureConfig.backend overriding_config)))).
  { apply (bool_decide_unpack _). vm_compute. reflexivity. }
  assert (Hin : In ("POSTGRES_USER"%string, "app"%string)
                   (BackendConfig.container_env_vars
                      (InfrastructureConfig.backend overriding_config)))
    by (left; reflexivity).
  exact (proj1 (backend_build_env_vars_override overriding_config
                  "arn:role" "repo.uri" "db.host" "arn:secret" "POSTGRES_USER" Hnd)
           "app"%string Hin).
Defined.

Lemma loaded_config_names_from_loader_witness :
  BaseConfig.prefix sample_config "network-stack" = "acme-dev-network-stack"%string
  /\ BaseConfig.tags sample_config
     = [("EnvName", "dev"); ("ProjectName", "acme"); ("ManagedBy", "CDK")]%string.
Proof.
  assert (Hrun :
    ConfigLoader.create_config sample_runtime sample_loader
      (World {[ ConfigLoader.config_path sample_loader := Document sample_document ]} [])
    = (Ok sample_config,
       World {[ ConfigLoader.config_path sample_loader := Document sample_document ]}
             (Open (ConfigLoader.config_path sample_loader) :: map Called model_names))).
  { vm_compute. reflexivity. }
  exact (loaded_config_names_from_loader _ _ _ _ _ "network-stack" Hrun).
Defined.
